(** * Bookipedia: books and authors joined many-to-many with a blurb

    A shallow embedding of the four [with-extra-data-N.py] applications.
    Each file declares the same three tables and the same seed rows, then a
    different set of pydantic schemas that shape the response of four GET
    routes.  The embedding follows that layout:

    - the relational store and the seed block;
    - the part of SQLAlchemy the files use (query, [where], [one], [all],
      relationships, association proxies, the raw SQL of variant 2);
    - the part of pydantic v1 the files use ([orm_mode], aliases,
      [allow_population_by_field_name], [getter_dict], [dict]);
    - the part of FastAPI the files use ([response_model],
      [response_model_exclude], [response_model_by_alias], [Depends] on a
      generator);
    - one module per source file with its classes and routes.

    [without-extra-data-1.py], the same service without the blurb, is not
    part of the development. *)

From Stdlib Require Import ZArith List String Bool Lia.
Import ListNotations.
Open Scope string_scope.
Open Scope Z_scope.
Set Warnings "-register-all".

(** ** Exceptions and results *)

(** The exceptions the four files can raise.  [NoResultFound] and
    [MultipleResultsFound] come from [Query.one]; [ValidationError] from
    pydantic; [AttributeError], [TypeError] and [KeyError] from attribute and
    item access in the custom getters and [dict] overrides. *)
Inductive exn : Type :=
| NoResultFound
| MultipleResultsFound
| ValidationError
| AttributeError
| TypeError
| KeyError.

Inductive result (A : Type) : Type :=
| Return (a : A)
| Raise (e : exn).
Arguments Return {A} a.
Arguments Raise {A} e.

Definition rbind {A B} (r : result A) (k : A -> result B) : result B :=
  match r with
  | Return a => k a
  | Raise e => Raise e
  end.

Declare Scope result_scope.
Delimit Scope result_scope with result.
Notation "x <- r ;; k" := (rbind r (fun x => k))
  (at level 61, r at next level, right associativity) : result_scope.

(** ** Storage layer *)

(** [class Book(Base)], [class Author(Base)], [class BookAuthor(Base)]: the
    mapped columns.  Python [int] is unbounded, hence [Z]. *)
Record Book : Type := mkBook { Book_id : Z; Book_title : string }.
Record Author : Type := mkAuthor { Author_id : Z; Author_name : string }.
Record BookAuthor : Type :=
  mkBookAuthor { book_id : Z; author_id : Z; blurb : string }.

(** The in-memory SQLite database: one list per [__tablename__], rows in
    insertion (rowid) order. *)
Record Store : Type := mkStore {
  tbl_books : list Book;
  tbl_authors : list Author;
  tbl_book_authors : list BookAuthor
}.

Definition empty_store : Store := mkStore [] [] [].

(** An [Integer] primary key left unset takes the largest rowid in the table
    plus one (1 in an empty table). *)
Definition next_rowid (ids : list Z) : Z := 1 + fold_right Z.max 0 ids.

(** [session.add_all([...]); session.commit()] of a new [Book] / [Author]:
    the row is appended and the object's [id] is set to the new key. *)
Definition add_Book (title : string) (s : Store) : Z * Store :=
  let id := next_rowid (map Book_id (tbl_books s)) in
  (id, mkStore (tbl_books s ++ [mkBook id title]) (tbl_authors s)
               (tbl_book_authors s)).

Definition add_Author (name : string) (s : Store) : Z * Store :=
  let id := next_rowid (map Author_id (tbl_authors s)) in
  (id, mkStore (tbl_books s) (tbl_authors s ++ [mkAuthor id name])
               (tbl_book_authors s)).

Definition add_BookAuthor (ba : BookAuthor) (s : Store) : Store :=
  mkStore (tbl_books s) (tbl_authors s) (tbl_book_authors s ++ [ba]).

(** The [# Insert data] block, the same text in the four files
    (with-extra-data-1.py lines 48-65, -2.py 71-88, -3.py and -4.py 44-61). *)
Definition seed (s0 : Store) : Store :=
  let '(book1, s) := add_Book "Dead People Who'd Be Influencers Today" s0 in
  let '(book2, s) := add_Book "How To Make Friends In Your 30s" s in
  let '(author1, s) := add_Author "Blu Renolds" s in
  let '(author2, s) := add_Author "Chip Egan" s in
  let '(author3, s) := add_Author "Alyssa Wyatt" s in
  let book_author1 := mkBookAuthor book1 author1 "Blue wrote chapter 1" in
  let book_author2 := mkBookAuthor book1 author2 "Chip wrote chapter 2" in
  let book_author3 := mkBookAuthor book2 author1 "Blue wrote chapters 1-3" in
  let book_author4 := mkBookAuthor book2 author3 "Alyssa wrote chapter 4" in
  add_BookAuthor book_author4
    (add_BookAuthor book_author3
      (add_BookAuthor book_author2
        (add_BookAuthor book_author1 s))).

(** The store every request sees: the tables are created empty
    ([Base.metadata.create_all]) and seeded once at import time. *)
Definition seeded : Store := seed empty_store.

(** Referential integrity as section 3 of the specification states it: every
    association row references an existing book and an existing author.
    SQLite does not enforce foreign keys unless asked to, so this is a
    property of the rows the seed inserts, not of the tables. *)
Definition has_book (s : Store) (id : Z) : bool :=
  existsb (fun b => Book_id b =? id) (tbl_books s).
Definition has_author (s : Store) (id : Z) : bool :=
  existsb (fun a => Author_id a =? id) (tbl_authors s).

Definition references_exist (s : Store) : Prop :=
  forall ba, In ba (tbl_book_authors s) ->
    has_book s (book_id ba) = true /\ has_author s (author_id ba) = true.

(** ** Python values *)

(** What attribute access on a mapped object can yield: [None], a column
    value, a related object, or a collection of related objects.  A [Row]
    returned by [fetchall()] is an object whose attributes are its columns. *)
Inductive scalar : Type := SInt (z : Z) | SStr (s : string).

Inductive orm_obj : Type :=
| OBook (b : Book)
| OAuthor (a : Author)
| OBookAuthor (ba : BookAuthor)
| ORow (cols : list (string * scalar)).

Inductive pyval : Type :=
| PNone
| PInt (z : Z)
| PStr (s : string)
| PObj (o : orm_obj)
| PList (l : list orm_obj).

Definition pyval_of_scalar (c : scalar) : pyval :=
  match c with SInt z => PInt z | SStr s => PStr s end.

(** JSON-compatible data: what [BaseModel.dict] builds and the response
    carries.  A [dict] keeps its keys in insertion order. *)
Inductive json : Type :=
| JNull
| JInt (z : Z)
| JStr (s : string)
| JList (l : list json)
| JDict (d : list (string * json)).

(** Lookup in an association list, first match. *)
Fixpoint assoc {A} (key : string) (d : list (string * A)) : option A :=
  match d with
  | [] => None
  | (k, v) :: rest => if String.eqb k key then Some v else assoc key rest
  end.

Definition keys {A} (d : list (string * A)) : list string := map fst d.

Definition mem (key : string) (l : list string) : bool :=
  existsb (String.eqb key) l.

(** *** Item access on dicts, as the [dict] overrides of variant 4 use it *)

(** [d[key]]: [KeyError] on a dict without the key, [TypeError] on anything
    that is not subscriptable by a [str] ([None], an [int], a [str], a
    [list]). *)
Definition getitem (d : json) (key : string) : result json :=
  match d with
  | JDict kv => match assoc key kv with
                | Some v => Return v
                | None => Raise KeyError
                end
  | _ => Raise TypeError
  end.

Fixpoint dict_set (key : string) (v : json) (kv : list (string * json))
  : list (string * json) :=
  match kv with
  | [] => [(key, v)]
  | (k, x) :: rest =>
      if String.eqb k key then (k, v) :: rest else (k, x) :: dict_set key v rest
  end.

Fixpoint dict_del (key : string) (kv : list (string * json))
  : list (string * json) :=
  match kv with
  | [] => []
  | (k, x) :: rest =>
      if String.eqb k key then rest else (k, x) :: dict_del key rest
  end.

(** [d[key] = v]: an existing key keeps its position, a new key goes last. *)
Definition setitem (d : json) (key : string) (v : json) : result json :=
  match d with
  | JDict kv => Return (JDict (dict_set key v kv))
  | _ => Raise TypeError
  end.

(** [del d[key]]. *)
Definition delitem (d : json) (key : string) : result json :=
  match d with
  | JDict kv => if mem key (keys kv) then Return (JDict (dict_del key kv))
                else Raise KeyError
  | _ => Raise TypeError
  end.

(** [for x in xs: body(x)] where the body mutates [x] in place: the list is
    rebuilt from the mutated items; the first exception leaves the loop. *)
Fixpoint for_each (body : json -> result json) (xs : list json)
  : result (list json) :=
  match xs with
  | [] => Return []
  | x :: rest =>
      (x' <- body x ;; rest' <- for_each body rest ;; Return (x' :: rest'))%result
  end.

(** ** The part of SQLAlchemy the files use *)

(** [Query.one()]: exactly one row or an exception. *)
Definition one {A} (rows : list A) : result A :=
  match rows with
  | [] => Raise NoResultFound
  | [x] => Return x
  | _ :: _ :: _ => Raise MultipleResultsFound
  end.

(** [relationship("BookAuthor", back_populates=...)] seen from the one side:
    the association rows whose foreign key is this row's key, in table
    order (no [order_by] is given). *)
Definition Book_authors_rel (s : Store) (b : Book) : list BookAuthor :=
  filter (fun ba => book_id ba =? Book_id b) (tbl_book_authors s).

Definition Author_books_rel (s : Store) (a : Author) : list BookAuthor :=
  filter (fun ba => author_id ba =? Author_id a) (tbl_book_authors s).

(** [relationship("Author", ...)] / [relationship("Book", ...)] seen from the
    association row: the referenced row, [None] when there is none. *)
Definition BookAuthor_author_rel (s : Store) (ba : BookAuthor) : option Author :=
  find (fun a => Author_id a =? author_id ba) (tbl_authors s).

Definition BookAuthor_book_rel (s : Store) (ba : BookAuthor) : option Book :=
  find (fun b => Book_id b =? book_id ba) (tbl_books s).

Definition pyval_of_option {A} (wrap : A -> orm_obj) (x : option A) : pyval :=
  match x with Some a => PObj (wrap a) | None => PNone end.

(** [association_proxy(target_collection, attr)] on a scalar relationship:
    the attribute of the target, [None] when the target is [None]. *)
Definition association_proxy {A} (target : option A) (attr : A -> pyval) : pyval :=
  match target with Some a => attr a | None => PNone end.

(** *** Sessions and the request monad *)

Definition Session : Type := nat.

(** What a request can observe and change: the database behind [engine] and
    the sessions that are open on it. *)
Record World : Type := mkWorld {
  database : Store;
  next_session : Session;
  open_sessions : list Session
}.

Definition M (A : Type) : Type := World -> result A * World.

Definition ret {A} (a : A) : M A := fun w => (Return a, w).
Definition lift {A} (r : result A) : M A := fun w => (r, w).
Definition bind {A B} (m : M A) (k : A -> M B) : M B :=
  fun w => match m w with
           | (Return a, w') => k a w'
           | (Raise e, w') => (Raise e, w')
           end.

Notation "x <~ m ;; k" := (bind m (fun x => k))
  (at level 61, m at next level, right associativity).

(** [try: body finally: fin]: [fin] runs whether [body] returns or raises,
    and the outcome of [body] is the outcome of the whole. *)
Definition try_finally {A} (body : M A) (fin : World -> World) : M A :=
  fun w => let (r, w') := body w in (r, fin w').

(** [Session(bind=engine)] and [db.close()]. *)
Definition Session_new : M Session :=
  fun w => (Return (next_session w),
            mkWorld (database w) (S (next_session w))
                    (next_session w :: open_sessions w)).

Definition Session_close (db : Session) (w : World) : World :=
  mkWorld (database w) (next_session w)
          (remove Nat.eq_dec db (open_sessions w)).

(** [db.query(Book)] and [db.query(Author)]: the rows of the table, through
    the session.  [joinedload] options change how many SELECTs are emitted,
    not which objects come back. *)
Definition query_Book (db : Session) : M (list Book) :=
  fun w => (Return (tbl_books (database w)), w).

Definition query_Author (db : Session) : M (list Author) :=
  fun w => (Return (tbl_authors (database w)), w).

(** ** The part of pydantic (v1) the files use *)

(** A validated value: what a model instance holds.  A model instance keeps,
    for each field, its name, its alias and its value, and the [dict] method
    of its class. *)
Inductive pval : Type :=
| VNone
| VInt (z : Z)
| VStr (s : string)
| VList (l : list pval)
| VModel (dict_method : json -> result json) (vals : list (string * string * pval)).

(** [GetterDict]: how a model reads a field from the object it is built from.
    The first argument is Python's [getattr(obj, key, default)] on the mapped
    classes of the file ([None] for a missing attribute). *)
Definition getter : Type :=
  (orm_obj -> string -> option pyval) -> orm_obj -> string -> result (option pyval).

(** [GetterDict.get(key, default)] is [getattr(self._obj, key, default)]. *)
Definition GetterDict : getter := fun getattr obj key => Return (getattr obj key).

(** [class Config]. *)
Record Config : Type := mkConfig {
  orm_mode : bool;
  allow_population_by_field_name : bool;
  getter_dict : getter
}.

(** Field types, models and field lists.  A field is [name: type] with
    [Field(alias=...)]; without an alias the alias is the name. *)
Inductive ftype : Type :=
| t_int
| t_str
| t_Optional (t : ftype)
| t_List (t : ftype)
| t_Model (m : model)
with model : Type :=
| BaseModel (cfg : Config) (dict_method : json -> result json) (fs : fields)
with fields : Type :=
| no_fields
| field (name alias : string) (t : ftype) (rest : fields).

Fixpoint fields_app (fs gs : fields) : fields :=
  match fs with
  | no_fields => gs
  | field name alias t rest => field name alias t (fields_app rest gs)
  end.

(** [class Sub(Base): more fields]: the base's fields first, its [Config] and
    [dict] inherited. *)
Definition subclass (base : model) (more : fields) : model :=
  match base with
  | BaseModel cfg dict_method fs => BaseModel cfg dict_method (fields_app fs more)
  end.

(** A field annotated [Optional[...]] without a default is not required and
    defaults to [None]; every other field of these files is required. *)
Definition required (t : ftype) : bool :=
  match t with t_Optional _ => false | _ => true end.

(** [BaseModel.dict] when a class does not override it. *)
Definition default_dict (data : json) : result json := Return data.

(** The scalar validators.  pydantic also coerces between [int] and [str];
    the columns are typed [Integer] and [String], so no attribute read by an
    [int] field holds a [str] or the reverse, and the coercions are left
    out. *)
Definition int_validator (v : pyval) : result pval :=
  match v with PInt z => Return (VInt z) | _ => Raise ValidationError end.

Definition str_validator (v : pyval) : result pval :=
  match v with PStr s => Return (VStr s) | _ => Raise ValidationError end.

Section Validation.

Variable getattr : orm_obj -> string -> option pyval.

(** [validate_model] reads a field by its alias first and, with
    [allow_population_by_field_name] and an alias that differs from the
    name, by its name next. *)
Definition populate (cfg : Config) (obj : orm_obj) (name alias : string)
  : result (option pyval) :=
  (v <- getter_dict cfg getattr obj alias ;;
   match v with
   | Some x => Return (Some x)
   | None =>
       if allow_population_by_field_name cfg && negb (String.eqb alias name)
       then getter_dict cfg getattr obj name
       else Return None
   end)%result.

(** Items of a [List[...]] field: every item is validated, the errors are
    collected and raised together at the end; any other exception leaves at
    once. *)
Fixpoint validate_items (f : orm_obj -> result pval) (l : list orm_obj)
         (errors : bool) : result (list pval) :=
  match l with
  | [] => if errors then Raise ValidationError else Return []
  | o :: rest =>
      match f o with
      | Return v => (vs <- validate_items f rest errors ;; Return (v :: vs))%result
      | Raise ValidationError => validate_items f rest true
      | Raise e => Raise e
      end
  end.

(** [field.validate], [Model.validate] / [Model.from_orm] and
    [validate_model]. *)
Fixpoint validate (t : ftype) (v : pyval) {struct t} : result pval :=
  match t with
  | t_int => int_validator v
  | t_str => str_validator v
  | t_Optional t' =>
      match v with
      | PNone => Return VNone
      | _ => validate t' v
      end
  | t_List t' =>
      match v with
      | PList l =>
          (vs <- validate_items (fun o => validate t' (PObj o)) l false ;;
           Return (VList vs))%result
      | _ => Raise ValidationError
      end
  | t_Model m =>
      match v with
      | PObj obj => from_orm m obj
      | _ => Raise ValidationError
      end
  end
with from_orm (m : model) (obj : orm_obj) {struct m} : result pval :=
  match m with
  | BaseModel cfg dict_method fs =>
      if orm_mode cfg
      then (vals <- validate_model cfg fs obj false ;;
            Return (VModel dict_method vals))%result
      else Raise ValidationError
  end
with validate_model (cfg : Config) (fs : fields) (obj : orm_obj)
                    (errors : bool) {struct fs}
  : result (list (string * string * pval)) :=
  match fs with
  | no_fields => if errors then Raise ValidationError else Return []
  | field name alias t rest =>
      match populate cfg obj name alias with
      | Raise e => Raise e
      | Return None =>
          if required t then validate_model cfg rest obj true
          else (vals <- validate_model cfg rest obj errors ;;
                Return ((name, alias, VNone) :: vals))%result
      | Return (Some v) =>
          match validate t v with
          | Return x =>
              (vals <- validate_model cfg rest obj errors ;;
               Return ((name, alias, x) :: vals))%result
          | Raise ValidationError => validate_model cfg rest obj true
          | Raise e => Raise e
          end
      end
  end.

End Validation.

(** [BaseModel.dict(exclude=..., by_alias=...)].  [exclude] given as a set of
    field names drops those fields of this model only; nested models are
    converted with their own [dict] and no [exclude].  The class's [dict]
    method runs on the plain dictionary (what its [super().dict] call
    returns). *)
Fixpoint dict_value (exclude : list string) (by_alias : bool) (v : pval)
  {struct v} : result json :=
  match v with
  | VNone => Return JNull
  | VInt z => Return (JInt z)
  | VStr s => Return (JStr s)
  | VList l =>
      (js <- (fix items (l : list pval) : result (list json) :=
                match l with
                | [] => Return []
                | x :: rest =>
                    j <- dict_value [] by_alias x ;;
                    js <- items rest ;;
                    Return (j :: js)
                end) l ;;
       Return (JList js))%result
  | VModel dict_method vals =>
      (d <- (fix entries (vals : list (string * string * pval))
               : result (list (string * json)) :=
               match vals with
               | [] => Return []
               | (name, alias, x) :: rest =>
                   if mem name exclude then entries rest
                   else
                     j <- dict_value [] by_alias x ;;
                     d <- entries rest ;;
                     Return ((if by_alias then alias else name, j) :: d)
               end) vals ;;
       dict_method (JDict d))%result
  end.

(** ** The part of FastAPI the files use *)

(** [jsonable_encoder(value, exclude=..., by_alias=...)]: a model is turned
    into a dictionary by its [dict] with the route's [exclude]; a list passes
    the same [exclude] on to each of its items. *)
Fixpoint jsonable_encoder (exclude : list string) (by_alias : bool) (v : pval)
  {struct v} : result json :=
  match v with
  | VList l =>
      (js <- (fix items (l : list pval) : result (list json) :=
                match l with
                | [] => Return []
                | x :: rest =>
                    j <- jsonable_encoder exclude by_alias x ;;
                    js <- items rest ;;
                    Return (j :: js)
                end) l ;;
       Return (JList js))%result
  | _ => dict_value exclude by_alias v
  end.

(** [serialize_response]: the value the endpoint returned is validated against
    [response_model], then encoded. *)
Definition serialize_response (getattr : orm_obj -> string -> option pyval)
    (response_model : ftype) (exclude : list string) (by_alias : bool)
    (content : pyval) : result json :=
  (value <- validate getattr response_model content ;;
   jsonable_encoder exclude by_alias value)%result.

(** [def get_db(): db = Session(bind=engine); try: yield db; finally: db.close()]
    used as [Depends(get_db)]: the rest of the request runs at the [yield]. *)
Definition get_db {A} (request : Session -> M A) : M A :=
  db <~ Session_new ;;
  try_finally (request db) (Session_close db).

(** [@app.get(path, response_model=..., response_model_exclude=...,
    response_model_by_alias=...)] on an endpoint with [db = Depends(get_db)].
    The response is serialized while the session is still open. *)
Definition app_get (getattr : Store -> orm_obj -> string -> option pyval)
    (response_model : ftype) (response_model_exclude : list string)
    (response_model_by_alias : bool) (endpoint : Session -> M pyval) : M json :=
  get_db (fun db =>
    content <~ endpoint db ;;
    fun w => (serialize_response (getattr (database w)) response_model
                response_model_exclude response_model_by_alias content, w)).

(** The four routes. *)
Inductive request : Type :=
| GET_book (id : Z)
| GET_books
| GET_author (id : Z)
| GET_authors.

(** What the client receives.  The files install no exception handler and
    raise no [HTTPException], so an exception that leaves an endpoint or the
    serialization reaches the server's last-resort handler: status 500. *)
Inductive response : Type :=
| HTTP_200 (body : json)
| HTTP_500 (e : exn).

Definition status_code (r : response) : Z :=
  match r with HTTP_200 _ => 200 | HTTP_500 _ => 500 end.



Definition respond (r : result json) : response :=
  match r with Return body => HTTP_200 body | Raise e => HTTP_500 e end.

(** ** The endpoints *)

(** The four endpoint bodies are the same in the four files up to their
    [joinedload] options: [db.query(C).where(C.id == id).one()] and
    [db.query(C).all()]. *)
Definition get_book (id : Z) (db : Session) : M pyval :=
  rows <~ query_Book db ;;
  db_book <~ lift (one (filter (fun b => Book_id b =? id) rows)) ;;
  ret (PObj (OBook db_book)).

Definition get_books (db : Session) : M pyval :=
  db_books <~ query_Book db ;;
  ret (PList (map OBook db_books)).

Definition get_author (id : Z) (db : Session) : M pyval :=
  rows <~ query_Author db ;;
  db_author <~ lift (one (filter (fun a => Author_id a =? id) rows)) ;;
  ret (PObj (OAuthor db_author)).

Definition get_authors (db : Session) : M pyval :=
  db_authors <~ query_Author db ;;
  ret (PList (map OAuthor db_authors)).

(** Attribute access on a [Row]: its columns. *)
Definition Row_getattr (cols : list (string * scalar)) (key : string)
  : option pyval :=
  option_map pyval_of_scalar (assoc key cols).

(** ** with-extra-data-1.py: association proxies *)

Module WithExtraData1.

(** The mapped classes: columns, relationships and, on [BookAuthor], the
    proxies [author_name] and [book_title]. *)
Definition getattr (s : Store) (obj : orm_obj) (key : string) : option pyval :=
  match obj with
  | OBookAuthor ba =>
      assoc key
        [("book_id", PInt (book_id ba));
         ("author_id", PInt (author_id ba));
         ("blurb", PStr (blurb ba));
         ("book", pyval_of_option OBook (BookAuthor_book_rel s ba));
         ("author", pyval_of_option OAuthor (BookAuthor_author_rel s ba));
         ("author_name",
          association_proxy (BookAuthor_author_rel s ba)
                            (fun a => PStr (Author_name a)));
         ("book_title",
          association_proxy (BookAuthor_book_rel s ba)
                            (fun b => PStr (Book_title b)))]
  | OBook b =>
      assoc key
        [("id", PInt (Book_id b));
         ("title", PStr (Book_title b));
         ("authors", PList (map OBookAuthor (Book_authors_rel s b)))]
  | OAuthor a =>
      assoc key
        [("id", PInt (Author_id a));
         ("name", PStr (Author_name a));
         ("books", PList (map OBookAuthor (Author_books_rel s a)))]
  | ORow cols => Row_getattr cols key
  end.

Definition Config_ : Config := mkConfig true true GetterDict.

Definition AuthorBase : model :=
  BaseModel Config_ default_dict
    (field "id" "author_id" t_int
    (field "name" "author_name" t_str
    (field "blurb" "blurb" (t_Optional t_str)
     no_fields))).

Definition BookBase : model :=
  BaseModel Config_ default_dict
    (field "id" "book_id" t_int
    (field "title" "book_title" t_str
    (field "blurb" "blurb" (t_Optional t_str)
     no_fields))).

Definition BookSchema : model :=
  subclass BookBase
    (field "authors" "authors" (t_List (t_Model AuthorBase)) no_fields).

Definition AuthorSchema : model :=
  subclass AuthorBase
    (field "books" "books" (t_List (t_Model BookBase)) no_fields).

(** The routes, each with [response_model_exclude={'blurb'}] and
    [response_model_by_alias=False]. *)
Definition app (r : request) : M json :=
  match r with
  | GET_book id =>
      app_get getattr (t_Model BookSchema) ["blurb"] false (get_book id)
  | GET_books =>
      app_get getattr (t_List (t_Model BookSchema)) ["blurb"] false get_books
  | GET_author id =>
      app_get getattr (t_Model AuthorSchema) ["blurb"] false (get_author id)
  | GET_authors =>
      app_get getattr (t_List (t_Model AuthorSchema)) ["blurb"] false get_authors
  end.

End WithExtraData1.

(** ** with-extra-data-2.py: view-only descriptors with raw SQL *)

Module WithExtraData2.

(** [Book.authors]:
    SELECT temp.* FROM (SELECT authors.*, book_authors.blurb,
    book_authors.book_id FROM authors INNER JOIN book_authors
    ON authors.id = book_authors.author_id) AS temp
    INNER JOIN books ON temp.book_id = books.id WHERE books.id = :bookid.
    SQL leaves the order of the rows open; the joins are read as nested
    loops in the order the tables are written.  [temp_authors] is the inner
    join of the subquery, [Book_authors_join] the outer join with its
    WHERE, and [Book_authors] the columns of [temp.*] of each joined row,
    as the [Row] objects [fetchall()] returns. *)
Definition temp_authors (s : Store) : list (Author * BookAuthor) :=
  flat_map (fun a =>
    map (pair a)
        (filter (fun ba => Author_id a =? author_id ba) (tbl_book_authors s)))
    (tbl_authors s).

Definition Book_authors_join (s : Store) (bookid : Z)
  : list (Author * BookAuthor) :=
  flat_map (fun temp =>
    map (fun _ => temp)
        (filter (fun b => (book_id (snd temp) =? Book_id b)
                          && (Book_id b =? bookid)) (tbl_books s)))
    (temp_authors s).

Definition Book_authors (s : Store) (bookid : Z) : list orm_obj :=
  map (fun temp =>
         ORow [("id", SInt (Author_id (fst temp)));
               ("name", SStr (Author_name (fst temp)));
               ("blurb", SStr (blurb (snd temp)));
               ("book_id", SInt (book_id (snd temp)))])
      (Book_authors_join s bookid).

(** [Author.books], the symmetric statement. *)
Definition temp_books (s : Store) : list (Book * BookAuthor) :=
  flat_map (fun b =>
    map (pair b)
        (filter (fun ba => Book_id b =? book_id ba) (tbl_book_authors s)))
    (tbl_books s).

Definition Author_books_join (s : Store) (authorid : Z)
  : list (Book * BookAuthor) :=
  flat_map (fun temp =>
    map (fun _ => temp)
        (filter (fun a => (author_id (snd temp) =? Author_id a)
                          && (Author_id a =? authorid)) (tbl_authors s)))
    (temp_books s).

Definition Author_books (s : Store) (authorid : Z) : list orm_obj :=
  map (fun temp =>
         ORow [("id", SInt (Book_id (fst temp)));
               ("title", SStr (Book_title (fst temp)));
               ("blurb", SStr (blurb (snd temp)));
               ("author_id", SInt (author_id (snd temp)))])
      (Author_books_join s authorid).

(** The mapped classes: [BookAuthor] has its three columns only; [authors]
    and [books] are the properties above. *)
Definition getattr (s : Store) (obj : orm_obj) (key : string) : option pyval :=
  match obj with
  | OBookAuthor ba =>
      assoc key
        [("book_id", PInt (book_id ba));
         ("author_id", PInt (author_id ba));
         ("blurb", PStr (blurb ba))]
  | OBook b =>
      assoc key
        [("id", PInt (Book_id b));
         ("title", PStr (Book_title b));
         ("authors", PList (Book_authors s (Book_id b)))]
  | OAuthor a =>
      assoc key
        [("id", PInt (Author_id a));
         ("name", PStr (Author_name a));
         ("books", PList (Author_books s (Author_id a)))]
  | ORow cols => Row_getattr cols key
  end.

Definition Config_ : Config := mkConfig true false GetterDict.

Definition AuthorBase : model :=
  BaseModel Config_ default_dict
    (field "id" "id" t_int
    (field "name" "name" t_str
     no_fields)).

Definition BookBase : model :=
  BaseModel Config_ default_dict
    (field "id" "id" t_int
    (field "title" "title" t_str
     no_fields)).

Definition BookSchema : model :=
  subclass BookBase
    (field "authors" "authors" (t_List (t_Model AuthorBase)) no_fields).

Definition AuthorSchema : model :=
  subclass AuthorBase
    (field "books" "books" (t_List (t_Model BookBase)) no_fields).

(** The routes: no [exclude], [by_alias] at FastAPI's default [True]. *)
Definition app (r : request) : M json :=
  match r with
  | GET_book id => app_get getattr (t_Model BookSchema) [] true (get_book id)
  | GET_books => app_get getattr (t_List (t_Model BookSchema)) [] true get_books
  | GET_author id => app_get getattr (t_Model AuthorSchema) [] true (get_author id)
  | GET_authors => app_get getattr (t_List (t_Model AuthorSchema)) [] true get_authors
  end.

End WithExtraData2.

(** The mapped classes of with-extra-data-3.py and with-extra-data-4.py:
    columns and relationships, no proxies. *)
Definition getattr_relationships (s : Store) (obj : orm_obj) (key : string)
  : option pyval :=
  match obj with
  | OBookAuthor ba =>
      assoc key
        [("book_id", PInt (book_id ba));
         ("author_id", PInt (author_id ba));
         ("blurb", PStr (blurb ba));
         ("book", pyval_of_option OBook (BookAuthor_book_rel s ba));
         ("author", pyval_of_option OAuthor (BookAuthor_author_rel s ba))]
  | OBook b =>
      assoc key
        [("id", PInt (Book_id b));
         ("title", PStr (Book_title b));
         ("authors", PList (map OBookAuthor (Book_authors_rel s b)))]
  | OAuthor a =>
      assoc key
        [("id", PInt (Author_id a));
         ("name", PStr (Author_name a));
         ("books", PList (map OBookAuthor (Author_books_rel s a)))]
  | ORow cols => Row_getattr cols key
  end.

(** [getattr(x, key)] without a default, on a value. *)
Definition getattr_of (getattr : orm_obj -> string -> option pyval)
    (x : option pyval) (key : string) : result (option pyval) :=
  match x with
  | Some (PObj o) =>
      match getattr o key with
      | Some v => Return (Some v)
      | None => Raise AttributeError
      end
  | _ => Raise AttributeError
  end.

(** ** with-extra-data-3.py: a custom pydantic GetterDict *)

Module WithExtraData3.

Definition getattr := getattr_relationships.

(** [if key in {'id', 'name'}: return getattr(self._obj.author, key)
     else: return super().get(key, default)] *)
Definition BookAuthorGetter : getter := fun getattr obj key =>
  if mem key ["id"; "name"]
  then getattr_of getattr (getattr obj "author") key
  else GetterDict getattr obj key.

Definition BookAuthorSchema : model :=
  BaseModel (mkConfig true false BookAuthorGetter) default_dict
    (field "id" "id" t_int
    (field "name" "name" t_str
    (field "blurb" "blurb" t_str
     no_fields))).

Definition BookSchema : model :=
  BaseModel (mkConfig true false GetterDict) default_dict
    (field "id" "id" t_int
    (field "title" "title" t_str
    (field "authors" "authors" (t_List (t_Model BookAuthorSchema))
     no_fields))).

Definition AuthorBookGetter : getter := fun getattr obj key =>
  if mem key ["id"; "title"]
  then getattr_of getattr (getattr obj "book") key
  else GetterDict getattr obj key.

Definition AuthorBookSchema : model :=
  BaseModel (mkConfig true false AuthorBookGetter) default_dict
    (field "id" "id" t_int
    (field "title" "title" t_str
    (field "blurb" "blurb" t_str
     no_fields))).

Definition AuthorSchema : model :=
  BaseModel (mkConfig true false GetterDict) default_dict
    (field "id" "id" t_int
    (field "name" "name" t_str
    (field "books" "books" (t_List (t_Model AuthorBookSchema))
     no_fields))).

Definition app (r : request) : M json :=
  match r with
  | GET_book id => app_get getattr (t_Model BookSchema) [] true (get_book id)
  | GET_books => app_get getattr (t_List (t_Model BookSchema)) [] true get_books
  | GET_author id => app_get getattr (t_Model AuthorSchema) [] true (get_author id)
  | GET_authors => app_get getattr (t_List (t_Model AuthorSchema)) [] true get_authors
  end.

End WithExtraData3.

(** [for x in xs: body(x)] on a JSON value.  Over a list the items are
    mutated in place.  Iterating a dict yields its keys and iterating a [str]
    its characters, which the body cannot mutate; [None] and an [int] are
    not iterable. *)
Definition for_in (xs : json) (body : json -> result json) : result json :=
  match xs with
  | JList l => (l' <- for_each body l ;; Return (JList l'))%result
  | JDict kv => (_ <- for_each body (map JStr (keys kv)) ;; Return xs)%result
  | JStr s =>
      (_ <- for_each body
              (map (fun c => JStr (String c EmptyString)) (list_ascii_of_string s)) ;;
       Return xs)%result
  | JNull | JInt _ => Raise TypeError
  end.

(** ** with-extra-data-4.py: custom JSON serialization *)

Module WithExtraData4.

Definition getattr := getattr_relationships.

Definition Config_ : Config := mkConfig true false GetterDict.

Definition RelatedBookSchema : model :=
  BaseModel Config_ default_dict
    (field "id" "id" t_int
    (field "title" "title" t_str
     no_fields)).

Definition AuthorBookSchema : model :=
  BaseModel Config_ default_dict
    (field "blurb" "blurb" t_str
    (field "book" "book" (t_Optional (t_Model RelatedBookSchema))
     no_fields)).

(** [AuthorSchema.dict]:
    [for b in data['books']: b['id'] = b['book']['id'];
     b['title'] = b['book']['title']; del b['book']]. *)
Definition AuthorSchema_dict (data : json) : result json :=
  (books <- getitem data "books" ;;
   books' <- for_in books (fun b =>
     book <- getitem b "book" ;;
     id <- getitem book "id" ;;
     b <- setitem b "id" id ;;
     book <- getitem b "book" ;;
     title <- getitem book "title" ;;
     b <- setitem b "title" title ;;
     delitem b "book") ;;
   setitem data "books" books')%result.

Definition AuthorSchema : model :=
  BaseModel Config_ AuthorSchema_dict
    (field "id" "id" t_int
    (field "name" "name" t_str
    (field "books" "books" (t_List (t_Model AuthorBookSchema))
     no_fields))).

Definition RelatedAuthorSchema : model :=
  BaseModel Config_ default_dict
    (field "id" "id" t_int
    (field "name" "name" t_str
     no_fields)).

Definition BookAuthorSchema : model :=
  BaseModel Config_ default_dict
    (field "blurb" "blurb" t_str
    (field "author" "author" (t_Optional (t_Model RelatedAuthorSchema))
     no_fields)).

(** [BookSchema.dict]:
    [for a in data['authors']: a['id'] = a['author']['id'];
     a['name'] = a['author']['name']; del a['author']]. *)
Definition BookSchema_dict (data : json) : result json :=
  (authors <- getitem data "authors" ;;
   authors' <- for_in authors (fun a =>
     author <- getitem a "author" ;;
     id <- getitem author "id" ;;
     a <- setitem a "id" id ;;
     author <- getitem a "author" ;;
     name <- getitem author "name" ;;
     a <- setitem a "name" name ;;
     delitem a "author") ;;
   setitem data "authors" authors')%result.

Definition BookSchema : model :=
  BaseModel Config_ BookSchema_dict
    (field "id" "id" t_int
    (field "title" "title" t_str
    (field "authors" "authors" (t_List (t_Model BookAuthorSchema))
     no_fields))).

Definition app (r : request) : M json :=
  match r with
  | GET_book id => app_get getattr (t_Model BookSchema) [] true (get_book id)
  | GET_books => app_get getattr (t_List (t_Model BookSchema)) [] true get_books
  | GET_author id => app_get getattr (t_Model AuthorSchema) [] true (get_author id)
  | GET_authors => app_get getattr (t_List (t_Model AuthorSchema)) [] true get_authors
  end.

End WithExtraData4.

(** ** The four applications side by side *)

Inductive variant : Type :=
| with_extra_data_1
| with_extra_data_2
| with_extra_data_3
| with_extra_data_4.

Definition app (v : variant) : request -> M json :=
  match v with
  | with_extra_data_1 => WithExtraData1.app
  | with_extra_data_2 => WithExtraData2.app
  | with_extra_data_3 => WithExtraData3.app
  | with_extra_data_4 => WithExtraData4.app
  end.

(** One request against a running application. *)
Definition handle (v : variant) (r : request) (w : World) : response * World :=
  let (out, w') := app v r w in (respond out, w').

(** A sequence of requests, one after the other. *)
Fixpoint serve (v : variant) (rs : list request) (w : World)
  : list response * World :=
  match rs with
  | [] => ([], w)
  | r :: rest =>
      let (resp, w') := handle v r w in
      let (resps, w'') := serve v rest w' in
      (resp :: resps, w'')
  end.

(** The world once the module is imported: the seed block has run in a
    session of its own ([with Session(bind=engine) as session]), which is
    closed again. *)
Definition startup : World := mkWorld seeded 1%nat [].

(** The response to a request as a function of the database alone. *)
Definition response_of (v : variant) (s : Store) (r : request) : response :=
  fst (handle v r (mkWorld s 0%nat [])).

(** ** Reading the model *)

(** What the endpoint of a route returns, as a function of the database. *)
Definition select (s : Store) (r : request) : result pyval :=
  match r with
  | GET_book id =>
      (b <- one (filter (fun b => Book_id b =? id) (tbl_books s)) ;;
       Return (PObj (OBook b)))%result
  | GET_books => Return (PList (map OBook (tbl_books s)))
  | GET_author id =>
      (a <- one (filter (fun a => Author_id a =? id) (tbl_authors s)) ;;
       Return (PObj (OAuthor a)))%result
  | GET_authors => Return (PList (map OAuthor (tbl_authors s)))
  end.

(** The outcome of a request as a function of the database alone. *)
Definition body_of (v : variant) (s : Store) (r : request) : result json :=
  fst (app v r (mkWorld s 0%nat [])).

(** The world after a request: one more session has been made, and it is
    not open. *)
Definition after_request (w : World) : World :=
  mkWorld (database w) (S (next_session w))
          (remove Nat.eq_dec (next_session w) (open_sessions w)).

(** The route table, read off the four [app] definitions. *)
Definition route_getattr (v : variant) : Store -> orm_obj -> string -> option pyval :=
  match v with
  | with_extra_data_1 => WithExtraData1.getattr
  | with_extra_data_2 => WithExtraData2.getattr
  | with_extra_data_3 => WithExtraData3.getattr
  | with_extra_data_4 => WithExtraData4.getattr
  end.

Definition BookSchema_of (v : variant) : model :=
  match v with
  | with_extra_data_1 => WithExtraData1.BookSchema
  | with_extra_data_2 => WithExtraData2.BookSchema
  | with_extra_data_3 => WithExtraData3.BookSchema
  | with_extra_data_4 => WithExtraData4.BookSchema
  end.

Definition AuthorSchema_of (v : variant) : model :=
  match v with
  | with_extra_data_1 => WithExtraData1.AuthorSchema
  | with_extra_data_2 => WithExtraData2.AuthorSchema
  | with_extra_data_3 => WithExtraData3.AuthorSchema
  | with_extra_data_4 => WithExtraData4.AuthorSchema
  end.

Definition route_model (v : variant) (r : request) : ftype :=
  match r with
  | GET_book _ => t_Model (BookSchema_of v)
  | GET_books => t_List (t_Model (BookSchema_of v))
  | GET_author _ => t_Model (AuthorSchema_of v)
  | GET_authors => t_List (t_Model (AuthorSchema_of v))
  end.

Definition route_exclude (v : variant) : list string :=
  match v with with_extra_data_1 => ["blurb"] | _ => [] end.

Definition route_by_alias (v : variant) : bool :=
  match v with with_extra_data_1 => false | _ => true end.

Definition serialize (v : variant) (s : Store) (r : request) (content : pyval)
  : result json :=
  serialize_response (route_getattr v s) (route_model v r) (route_exclude v)
                     (route_by_alias v) content.


(** The loops inside [dict_value] and [jsonable_encoder], by name. *)
Definition dict_items (by_alias : bool) : list pval -> result (list json) :=
  fix items (l : list pval) : result (list json) :=
    match l with
    | [] => Return []
    | x :: rest =>
        (j <- dict_value [] by_alias x ;;
         js <- items rest ;;
         Return (j :: js))%result
    end.

Definition dict_entries (exclude : list string) (by_alias : bool)
  : list (string * string * pval) -> result (list (string * json)) :=
  fix entries (vals : list (string * string * pval))
    : result (list (string * json)) :=
    match vals with
    | [] => Return []
    | (name, alias, x) :: rest =>
        if mem name exclude then entries rest
        else
          (j <- dict_value [] by_alias x ;;
           d <- entries rest ;;
           Return ((if by_alias then alias else name, j) :: d))%result
    end.

Definition encode_items (exclude : list string) (by_alias : bool)
  : list pval -> result (list json) :=
  fix items (l : list pval) : result (list json) :=
    match l with
    | [] => Return []
    | x :: rest =>
        (j <- jsonable_encoder exclude by_alias x ;;
         js <- items rest ;;
         Return (j :: js))%result
    end.

(** All-or-nothing map. *)
Fixpoint traverse {A B} (g : A -> option B) (l : list A) : option (list B) :=
  match l with
  | [] => Some []
  | x :: rest =>
      match g x, traverse g rest with
      | Some y, Some ys => Some (y :: ys)
      | _, _ => None
      end
  end.

Definition of_option {A} (e : exn) (x : option A) : result A :=
  match x with Some a => Return a | None => Raise e end.

(** ** The shaping, written directly *)

(** Sections 4.2 and 9 of the specification describe the shaping as a
    projection [(relatedEntity, associationRow) -> flatRecord] applied to each
    association of the entity.  The definitions below are that description,
    with the key order and the fields each variant really emits; the
    theorems relate them to what the schemas compute. *)

Definition resolve_author (s : Store) (ba : BookAuthor)
  : option (BookAuthor * Author) :=
  option_map (pair ba) (BookAuthor_author_rel s ba).

Definition resolve_book (s : Store) (ba : BookAuthor)
  : option (BookAuthor * Book) :=
  option_map (pair ba) (BookAuthor_book_rel s ba).

(** The associations of a book with their authors, in the order the variant
    fetches them; [None] when an association has no author row and the
    variant goes through the relationship. *)
Definition Book_pairs (v : variant) (s : Store) (b : Book)
  : option (list (BookAuthor * Author)) :=
  match v with
  | with_extra_data_2 =>
      Some (map (fun temp => (snd temp, fst temp))
                (WithExtraData2.Book_authors_join s (Book_id b)))
  | _ => traverse (resolve_author s) (Book_authors_rel s b)
  end.

Definition Author_pairs (v : variant) (s : Store) (a : Author)
  : option (list (BookAuthor * Book)) :=
  match v with
  | with_extra_data_2 =>
      Some (map (fun temp => (snd temp, fst temp))
                (WithExtraData2.Author_books_join s (Author_id a)))
  | _ => traverse (resolve_book s) (Author_books_rel s a)
  end.

(** The flat record of one association. *)
Definition author_entry (v : variant) (p : BookAuthor * Author) : json :=
  match v with
  | with_extra_data_1 =>
      JDict [("id", JInt (author_id (fst p)));
             ("name", JStr (Author_name (snd p)));
             ("blurb", JStr (blurb (fst p)))]
  | with_extra_data_2 =>
      JDict [("id", JInt (Author_id (snd p)));
             ("name", JStr (Author_name (snd p)))]
  | with_extra_data_3 =>
      JDict [("id", JInt (Author_id (snd p)));
             ("name", JStr (Author_name (snd p)));
             ("blurb", JStr (blurb (fst p)))]
  | with_extra_data_4 =>
      JDict [("blurb", JStr (blurb (fst p)));
             ("id", JInt (Author_id (snd p)));
             ("name", JStr (Author_name (snd p)))]
  end.

Definition book_entry (v : variant) (p : BookAuthor * Book) : json :=
  match v with
  | with_extra_data_1 =>
      JDict [("id", JInt (book_id (fst p)));
             ("title", JStr (Book_title (snd p)));
             ("blurb", JStr (blurb (fst p)))]
  | with_extra_data_2 =>
      JDict [("id", JInt (Book_id (snd p)));
             ("title", JStr (Book_title (snd p)))]
  | with_extra_data_3 =>
      JDict [("id", JInt (Book_id (snd p)));
             ("title", JStr (Book_title (snd p)));
             ("blurb", JStr (blurb (fst p)))]
  | with_extra_data_4 =>
      JDict [("blurb", JStr (blurb (fst p)));
             ("id", JInt (Book_id (snd p)));
             ("title", JStr (Book_title (snd p)))]
  end.

Definition shaped_Book (v : variant) (s : Store) (b : Book) : option json :=
  option_map
    (fun ps => JDict [("id", JInt (Book_id b));
                      ("title", JStr (Book_title b));
                      ("authors", JList (map (author_entry v) ps))])
    (Book_pairs v s b).

Definition shaped_Author (v : variant) (s : Store) (a : Author) : option json :=
  option_map
    (fun ps => JDict [("id", JInt (Author_id a));
                      ("name", JStr (Author_name a));
                      ("books", JList (map (book_entry v) ps))])
    (Author_pairs v s a).

(** The exception a variant ends with when an association has no related
    row: variant 1 fails validation ([name] is [None]), variant 3 reads an
    attribute of [None], variant 4 subscripts [None]. *)
Definition failure (v : variant) : exn :=
  match v with
  | with_extra_data_1 => ValidationError
  | with_extra_data_2 => ValidationError
  | with_extra_data_3 => AttributeError
  | with_extra_data_4 => TypeError
  end.

Definition shaped (v : variant) (s : Store) (r : request) : result json :=
  match r with
  | GET_book id =>
      (b <- one (filter (fun b => Book_id b =? id) (tbl_books s)) ;;
       of_option (failure v) (shaped_Book v s b))%result
  | GET_books =>
      (js <- of_option (failure v) (traverse (shaped_Book v s) (tbl_books s)) ;;
       Return (JList js))%result
  | GET_author id =>
      (a <- one (filter (fun a => Author_id a =? id) (tbl_authors s)) ;;
       of_option (failure v) (shaped_Author v s a))%result
  | GET_authors =>
      (js <- of_option (failure v) (traverse (shaped_Author v s) (tbl_authors s)) ;;
       Return (JList js))%result
  end.

(** *** The model instances in between *)

Definition author_inst (v : variant) (p : BookAuthor * Author) : pval :=
  match v with
  | with_extra_data_1 =>
      VModel default_dict
        [("id", "author_id", VInt (author_id (fst p)));
         ("name", "author_name", VStr (Author_name (snd p)));
         ("blurb", "blurb", VStr (blurb (fst p)))]
  | with_extra_data_2 =>
      VModel default_dict
        [("id", "id", VInt (Author_id (snd p)));
         ("name", "name", VStr (Author_name (snd p)))]
  | with_extra_data_3 =>
      VModel default_dict
        [("id", "id", VInt (Author_id (snd p)));
         ("name", "name", VStr (Author_name (snd p)));
         ("blurb", "blurb", VStr (blurb (fst p)))]
  | with_extra_data_4 => VNone
  end.

Definition book_inst (v : variant) (p : BookAuthor * Book) : pval :=
  match v with
  | with_extra_data_1 =>
      VModel default_dict
        [("id", "book_id", VInt (book_id (fst p)));
         ("title", "book_title", VStr (Book_title (snd p)));
         ("blurb", "blurb", VStr (blurb (fst p)))]
  | with_extra_data_2 =>
      VModel default_dict
        [("id", "id", VInt (Book_id (snd p)));
         ("title", "title", VStr (Book_title (snd p)))]
  | with_extra_data_3 =>
      VModel default_dict
        [("id", "id", VInt (Book_id (snd p)));
         ("title", "title", VStr (Book_title (snd p)));
         ("blurb", "blurb", VStr (blurb (fst p)))]
  | with_extra_data_4 => VNone
  end.

(** Variant 4 validates an association whether or not its related row
    exists: the field is [Optional]. *)
Definition author_inst4 (s : Store) (ba : BookAuthor) : pval :=
  VModel default_dict
    [("blurb", "blurb", VStr (blurb ba));
     ("author", "author",
      match BookAuthor_author_rel s ba with
      | Some a => VModel default_dict
                    [("id", "id", VInt (Author_id a));
                     ("name", "name", VStr (Author_name a))]
      | None => VNone
      end)].

Definition book_inst4 (s : Store) (ba : BookAuthor) : pval :=
  VModel default_dict
    [("blurb", "blurb", VStr (blurb ba));
     ("book", "book",
      match BookAuthor_book_rel s ba with
      | Some b => VModel default_dict
                    [("id", "id", VInt (Book_id b));
                     ("title", "title", VStr (Book_title b))]
      | None => VNone
      end)].

Definition Book_inst (v : variant) (s : Store) (b : Book) : option pval :=
  match v with
  | with_extra_data_1 =>
      option_map
        (fun ps => VModel default_dict
                     [("id", "book_id", VInt (Book_id b));
                      ("title", "book_title", VStr (Book_title b));
                      ("blurb", "blurb", VNone);
                      ("authors", "authors", VList (map (author_inst v) ps))])
        (Book_pairs v s b)
  | with_extra_data_4 =>
      Some (VModel WithExtraData4.BookSchema_dict
              [("id", "id", VInt (Book_id b));
               ("title", "title", VStr (Book_title b));
               ("authors", "authors",
                VList (map (author_inst4 s) (Book_authors_rel s b)))])
  | _ =>
      option_map
        (fun ps => VModel default_dict
                     [("id", "id", VInt (Book_id b));
                      ("title", "title", VStr (Book_title b));
                      ("authors", "authors", VList (map (author_inst v) ps))])
        (Book_pairs v s b)
  end.

Definition Author_inst (v : variant) (s : Store) (a : Author) : option pval :=
  match v with
  | with_extra_data_1 =>
      option_map
        (fun ps => VModel default_dict
                     [("id", "author_id", VInt (Author_id a));
                      ("name", "author_name", VStr (Author_name a));
                      ("blurb", "blurb", VNone);
                      ("books", "books", VList (map (book_inst v) ps))])
        (Author_pairs v s a)
  | with_extra_data_4 =>
      Some (VModel WithExtraData4.AuthorSchema_dict
              [("id", "id", VInt (Author_id a));
               ("name", "name", VStr (Author_name a));
               ("books", "books",
                VList (map (book_inst4 s) (Author_books_rel s a)))])
  | _ =>
      option_map
        (fun ps => VModel default_dict
                     [("id", "id", VInt (Author_id a));
                      ("name", "name", VStr (Author_name a));
                      ("books", "books", VList (map (book_inst v) ps))])
        (Author_pairs v s a)
  end.

(** The dictionary of an association in variant 4 before the [dict] override
    has merged it. *)
Definition author_nested4 (s : Store) (ba : BookAuthor) : json :=
  JDict [("blurb", JStr (blurb ba));
         ("author",
          match BookAuthor_author_rel s ba with
          | Some a => JDict [("id", JInt (Author_id a));
                             ("name", JStr (Author_name a))]
          | None => JNull
          end)].

Definition book_nested4 (s : Store) (ba : BookAuthor) : json :=
  JDict [("blurb", JStr (blurb ba));
         ("book",
          match BookAuthor_book_rel s ba with
          | Some b => JDict [("id", JInt (Book_id b));
                             ("title", JStr (Book_title b))]
          | None => JNull
          end)].

(** ** Reading a response body *)

(** The objects of a body: the body itself on a singular route, the items of
    the list on a collection route. *)
Definition top_level_objects (body : json) : list json :=
  match body with
  | JList l => l
  | _ => [body]
  end.

(** The entries of the [authors] and [books] lists of an object. *)
Definition related_list (o : json) : list json :=
  match o with
  | JDict d =>
      match assoc "authors" d with Some (JList l) => l | _ => [] end ++
      match assoc "books" d with Some (JList l) => l | _ => [] end
  | _ => []
  end.

Definition list_entries (body : json) : list json :=
  flat_map related_list (top_level_objects body).

Definition has_key (key : string) (o : json) : bool :=
  match o with
  | JDict d => mem key (keys d)
  | _ => false
  end.

Definition get (key : string) (o : json) : option json :=
  match o with
  | JDict d => assoc key d
  | _ => None
  end.

Definition is_scalar (j : json) : bool :=
  match j with
  | JNull | JInt _ | JStr _ => true
  | JList _ | JDict _ => false
  end.

(** A flat object: a dictionary whose values are all scalars. *)
Definition is_flat (o : json) : bool :=
  match o with
  | JDict d => forallb is_scalar (map snd d)
  | _ => false
  end.

(** Equality of JSON data as Python's [==] decides it: lists item by item,
    dictionaries key by key whatever the order of the keys. *)
Fixpoint json_eqb (x y : json) {struct x} : bool :=
  match x, y with
  | JNull, JNull => true
  | JInt a, JInt b => a =? b
  | JStr a, JStr b => String.eqb a b
  | JList l, JList l' =>
      (fix items (l l' : list json) : bool :=
         match l, l' with
         | [], [] => true
         | a :: r, b :: r' => json_eqb a b && items r r'
         | _, _ => false
         end) l l'
  | JDict d, JDict d' =>
      (List.length d =? List.length d')%nat &&
      (fix entries (d : list (string * json)) : bool :=
         match d with
         | [] => true
         | (k, a) :: r =>
             match assoc k d' with
             | Some b => json_eqb a b
             | None => false
             end && entries r
         end) d
  | _, _ => false
  end.

Definition json_list_eqb : list json -> list json -> bool :=
  fix items (l l' : list json) : bool :=
    match l, l' with
    | [] , [] => true
    | a :: r, b :: r' => json_eqb a b && items r r'
    | _, _ => false
    end.

(** Two responses a client cannot tell apart: the same status and, for a
    200, equal bodies. *)
Definition response_eqb (x y : response) : bool :=
  match x, y with
  | HTTP_200 a, HTTP_200 b => json_eqb a b
  | HTTP_500 _, HTTP_500 _ => true
  | _, _ => false
  end.

(** A store that breaks referential integrity: one association whose author
    row is missing. *)
Definition dangling : Store :=
  mkStore [mkBook 1 "B"] [] [mkBookAuthor 1 7 "x"].

(** An object of a body is the shaped form of a book or of an author of the
    store. *)
Definition shaped_object (v : variant) (s : Store) (o : json) : Prop :=
  (exists b ps, In b (tbl_books s) /\ Book_pairs v s b = Some ps /\
     o = JDict [("id", JInt (Book_id b)); ("title", JStr (Book_title b));
                ("authors", JList (map (author_entry v) ps))]) \/
  (exists a ps, In a (tbl_authors s) /\ Author_pairs v s a = Some ps /\
     o = JDict [("id", JInt (Author_id a)); ("name", JStr (Author_name a));
                ("books", JList (map (book_entry v) ps))]).

(** An entry of an [authors] or [books] list that merges the association
    into the related entity: flat, without the foreign keys, without a nested
    [author] or [book]. *)
Definition merged_flat (e : json) : Prop :=
  is_flat e = true /\
  has_key "book_id" e = false /\ has_key "author_id" e = false /\
  has_key "author" e = false /\ has_key "book" e = false.

From Stdlib Require Import Permutation.

(** ** Primary keys *)

(** [id = Column(Integer, primary_key=True)]: the table holds no two rows
    with the same [id]. *)
Definition unique_keys (s : Store) : Prop :=
  NoDup (map Book_id (tbl_books s)) /\ NoDup (map Author_id (tbl_authors s)).

(** A store that breaks referential integrity the other way: one association
    whose book row is missing. *)
Definition dangling_book : Store :=
  mkStore [] [mkAuthor 1 "A"] [mkBookAuthor 9 1 "x"].

(** The associations of a list whose related row exists, each with that row,
    in the order of the list. *)
Definition resolved_authors (s : Store) (l : list BookAuthor)
  : list (BookAuthor * Author) :=
  flat_map (fun ba => match BookAuthor_author_rel s ba with
                      | Some a => [(ba, a)]
                      | None => []
                      end) l.

Definition resolved_books (s : Store) (l : list BookAuthor)
  : list (BookAuthor * Book) :=
  flat_map (fun ba => match BookAuthor_book_rel s ba with
                      | Some b => [(ba, b)]
                      | None => []
                      end) l.

(** An entry with its [blurb] removed. *)
Definition without_blurb (e : json) : json :=
  match e with
  | JDict d => JDict (dict_del "blurb" d)
  | _ => e
  end.


(** A store with a book and an author that take part in no association,
    beside an association whose rows are both missing. *)
Definition unrelated : Store :=
  mkStore [mkBook 1 "B"] [mkAuthor 1 "A"] [mkBookAuthor 2 2 "x"].

(** * Properties *)

(** ** The seed *)

(** C5.  After the seed block has run on the empty tables the store holds
    exactly two books, three authors and four association rows, with the
    literal titles, names and blurbs of the source: book 1 paired with
    authors 1 and 2, book 2 paired with authors 1 and 3. *)
Theorem seed_rows :
  database startup =
    mkStore
      [mkBook 1 "Dead People Who'd Be Influencers Today";
       mkBook 2 "How To Make Friends In Your 30s"]
      [mkAuthor 1 "Blu Renolds"; mkAuthor 2 "Chip Egan"; mkAuthor 3 "Alyssa Wyatt"]
      [mkBookAuthor 1 1 "Blue wrote chapter 1";
       mkBookAuthor 1 2 "Chip wrote chapter 2";
       mkBookAuthor 2 1 "Blue wrote chapters 1-3";
       mkBookAuthor 2 3 "Alyssa wrote chapter 4"]
  /\ List.length (tbl_books seeded) = 2%nat
  /\ List.length (tbl_authors seeded) = 3%nat
  /\ List.length (tbl_book_authors seeded) = 4%nat.
Proof. repeat split. Qed.

(** The seeded store satisfies referential integrity. *)
Lemma seeded_references_exist : references_exist seeded.
Proof.
  intros ba H. simpl in H.
  repeat (destruct H as [<- | H]; [split; reflexivity |]).
  contradiction.
Qed.

(** ** Sessions and reads *)

Lemma remove_head (db : Session) (l : list Session) :
  remove Nat.eq_dec db (db :: l) = remove Nat.eq_dec db l.
Proof. simpl. destruct (Nat.eq_dec db db); [reflexivity | contradiction]. Qed.

Lemma in_remove_other (db x : Session) (l : list Session) :
  x <> db -> (In x (remove Nat.eq_dec db l) <-> In x l).
Proof.
  intros Hne. split.
  - intros H. apply in_remove in H. tauto.
  - intros H. apply in_in_remove; assumption.
Qed.

(** Whatever runs at the [yield], returning or raising, the session that
    [get_db] made is closed when [get_db] is left. *)
Lemma get_db_closes {A} (body : Session -> M A) (w : World) :
  ~ In (next_session w) (open_sessions (snd (get_db body w))).
Proof.
  unfold get_db, bind, Session_new, try_finally.
  destruct (body (next_session w) _) as [r w']. simpl.
  apply remove_In.
Qed.

(** The endpoints read the database and touch nothing. *)
Lemma get_book_run id db w :
  get_book id db w = (select (database w) (GET_book id), w).
Proof.
  unfold get_book, bind, query_Book, lift, ret, select.
  destruct (one _); reflexivity.
Qed.

Lemma get_author_run id db w :
  get_author id db w = (select (database w) (GET_author id), w).
Proof.
  unfold get_author, bind, query_Author, lift, ret, select.
  destruct (one _); reflexivity.
Qed.

Lemma get_books_run db w : get_books db w = (select (database w) GET_books, w).
Proof. reflexivity. Qed.

Lemma get_authors_run db w :
  get_authors db w = (select (database w) GET_authors, w).
Proof. reflexivity. Qed.

(** A route whose endpoint only reads: the outcome is the serialization of
    what the endpoint selected, the session is made and closed. *)
Lemma app_get_run getattr t exclude by_alias endpoint (sel : Store -> result pyval) w :
  (forall db w, endpoint db w = (sel (database w), w)) ->
  app_get getattr t exclude by_alias endpoint w =
    (rbind (sel (database w))
           (serialize_response (getattr (database w)) t exclude by_alias),
     after_request w).
Proof.
  intros Hsel.
  unfold app_get, get_db, bind, Session_new, try_finally, after_request.
  rewrite Hsel. cbn [database next_session open_sessions].
  destruct (sel (database w)) as [content | e]; cbn [rbind];
    unfold Session_close; cbn [database next_session open_sessions];
    rewrite remove_head; reflexivity.
Qed.

Lemma app_run v r w :
  app v r w =
    (rbind (select (database w) r) (serialize v (database w) r), after_request w).
Proof.
  destruct v, r; unfold app, WithExtraData1.app, WithExtraData2.app,
    WithExtraData3.app, WithExtraData4.app, serialize;
    cbn [route_getattr route_model route_exclude route_by_alias
         BookSchema_of AuthorSchema_of].
  all: first
    [ apply (app_get_run _ _ _ _ _ (fun s => select s (GET_book id)));
      intros; apply get_book_run
    | apply (app_get_run _ _ _ _ _ (fun s => select s (GET_author id)));
      intros; apply get_author_run
    | apply (app_get_run _ _ _ _ _ (fun s => select s GET_books));
      intros; apply get_books_run
    | apply (app_get_run _ _ _ _ _ (fun s => select s GET_authors));
      intros; apply get_authors_run ].
Qed.

Lemma body_of_eq v s r :
  body_of v s r = rbind (select s r) (serialize v s r).
Proof. unfold body_of. rewrite app_run. reflexivity. Qed.

Lemma handle_run v r w :
  handle v r w = (response_of v (database w) r, after_request w).
Proof.
  unfold response_of, handle. rewrite !app_run. reflexivity.
Qed.

(** C9.  For every variant, route and world, the request makes one session,
    and when the request is over that session is not open, whether the
    outcome is a body (the endpoint returned) or an exception (the endpoint or
    the serialization raised); the sessions that were open before are
    untouched. *)
Theorem session_closed_on_every_exit v r w :
  ((exists body, fst (handle v r w) = HTTP_200 body) \/
   (exists e, fst (handle v r w) = HTTP_500 e)) /\
  next_session (snd (handle v r w)) = S (next_session w) /\
  ~ In (next_session w) (open_sessions (snd (handle v r w))) /\
  (forall db, db <> next_session w ->
     (In db (open_sessions (snd (handle v r w))) <-> In db (open_sessions w))).
Proof.
  rewrite handle_run. cbn [fst snd after_request next_session open_sessions].
  repeat split.
  - destruct (response_of v (database w) r); eauto.
  - apply remove_In.
  - apply in_remove_other; assumption.
  - apply in_remove_other; assumption.
Qed.

(** Both exits occur: a request that returns and a request that raises, each
    leaving no session open. *)
Example session_closed_after_return :
  handle with_extra_data_3 GET_authors startup =
    (response_of with_extra_data_3 seeded GET_authors, mkWorld seeded 2%nat [])
  /\ status_code (response_of with_extra_data_3 seeded GET_authors) = 200.
Proof. split; reflexivity. Qed.

Example session_closed_after_raise :
  handle with_extra_data_3 (GET_author 7) startup =
    (HTTP_500 NoResultFound, mkWorld seeded 2%nat []).
Proof. reflexivity. Qed.



(** ** Lookups that do not match exactly one row *)





(** ** The interpreter of schemas *)

Lemma dict_value_VList exclude by_alias l :
  dict_value exclude by_alias (VList l) =
    (js <- dict_items by_alias l ;; Return (JList js))%result.
Proof. reflexivity. Qed.

Lemma dict_value_VModel exclude by_alias dict_method vals :
  dict_value exclude by_alias (VModel dict_method vals) =
    (d <- dict_entries exclude by_alias vals ;; dict_method (JDict d))%result.
Proof. reflexivity. Qed.

Lemma jsonable_encoder_VList exclude by_alias l :
  jsonable_encoder exclude by_alias (VList l) =
    (js <- encode_items exclude by_alias l ;; Return (JList js))%result.
Proof. reflexivity. Qed.

Lemma jsonable_encoder_VModel exclude by_alias dict_method vals :
  jsonable_encoder exclude by_alias (VModel dict_method vals) =
    (d <- dict_entries exclude by_alias vals ;; dict_method (JDict d))%result.
Proof. reflexivity. Qed.

Lemma traverse_Some {A B} (g : A -> option B) l ys :
  traverse g l = Some ys -> Forall2 (fun x y => g x = Some y) l ys.
Proof.
  revert ys. induction l as [| x rest IH]; intros ys H; cbn in H.
  - injection H as <-. constructor.
  - destruct (g x) as [y |] eqn:Hx; [| discriminate].
    destruct (traverse g rest) as [ys' |]; [| discriminate].
    injection H as <-. constructor; auto.
Qed.

Lemma traverse_map {A B} (g : A -> B) l :
  traverse (fun x => Some (g x)) l = Some (map g l).
Proof.
  induction l as [| x rest IH]; cbn; [reflexivity |]. rewrite IH. reflexivity.
Qed.

Lemma traverse_ext {A B} (g k : A -> option B) l :
  (forall x, In x l -> g x = k x) -> traverse g l = traverse k l.
Proof.
  induction l as [| x rest IH]; intros H; cbn; [reflexivity |].
  rewrite (H x (or_introl eq_refl)), IH; [reflexivity |].
  intros y Hy. apply H. right. exact Hy.
Qed.

(** Items of a list field: all validated, or the exception of the items
    that fail.  With a collected [ValidationError] the outcome is the same
    exception at the end. *)
Lemma validate_items_traverse {A} (f : orm_obj -> result pval)
      (wrap : A -> orm_obj) (g : A -> option pval) (e : exn) (l : list A) :
  (forall x, In x l -> f (wrap x) = of_option e (g x)) ->
  forall errors,
    validate_items f (map wrap l) errors =
      match traverse g l with
      | Some ys => if errors then Raise ValidationError else Return ys
      | None => Raise e
      end.
Proof.
  induction l as [| x rest IH]; intros Hf errors; cbn [map validate_items traverse].
  - reflexivity.
  - rewrite (Hf x (or_introl eq_refl)).
    assert (Hrest : forall y, In y rest -> f (wrap y) = of_option e (g y)).
    { intros y Hy. apply Hf. right. exact Hy. }
    destruct (g x) as [y |]; cbn [of_option].
    + rewrite (IH Hrest errors).
      destruct (traverse g rest) as [ys |]; [destruct errors |]; reflexivity.
    + destruct e; try reflexivity.
      rewrite (IH Hrest true).
      destruct (traverse g rest); reflexivity.
Qed.

Lemma dict_items_map {A} by_alias (h : A -> pval) (k : A -> json) l :
  (forall x, In x l -> dict_value [] by_alias (h x) = Return (k x)) ->
  dict_items by_alias (map h l) = Return (map k l).
Proof.
  induction l as [| x rest IH]; intros H; cbn [map dict_items]; [reflexivity |].
  rewrite (H x (or_introl eq_refl)). cbn [rbind].
  rewrite IH; [reflexivity |]. intros y Hy. apply H. right. exact Hy.
Qed.

Lemma encode_items_traverse {A} exclude by_alias (g : A -> option pval)
      (k : A -> option json) (e : exn) l ys :
  traverse g l = Some ys ->
  (forall x y, In x l -> g x = Some y ->
     jsonable_encoder exclude by_alias y = of_option e (k x)) ->
  encode_items exclude by_alias ys = of_option e (traverse k l).
Proof.
  revert ys. induction l as [| x rest IH]; intros ys Hg Hk; cbn in Hg.
  - injection Hg as <-. reflexivity.
  - destruct (g x) as [y |] eqn:Hx; [| discriminate].
    destruct (traverse g rest) as [ys' |] eqn:Hrest; [| discriminate].
    injection Hg as <-. cbn [encode_items traverse].
    rewrite (Hk x y (or_introl eq_refl) Hx).
    destruct (k x) as [j |]; cbn [of_option rbind]; [| reflexivity].
    rewrite (IH ys' eq_refl).
    + destruct (traverse k rest); reflexivity.
    + intros x' y' Hin. apply Hk. right. exact Hin.
Qed.

Lemma for_each_traverse {A} (body : json -> result json) (h : A -> json)
      (g : A -> option json) (e : exn) l :
  (forall x, In x l -> body (h x) = of_option e (g x)) ->
  for_each body (map h l) = of_option e (traverse g l).
Proof.
  induction l as [| x rest IH]; intros H; cbn [map for_each traverse];
    [reflexivity |].
  rewrite (H x (or_introl eq_refl)).
  destruct (g x) as [y |]; cbn [of_option rbind]; [| reflexivity].
  rewrite IH.
  - destruct (traverse g rest); reflexivity.
  - intros y' Hy. apply H. right. exact Hy.
Qed.

(** The row a [find] on a key returns has that key. *)
Lemma author_rel_id s ba a :
  BookAuthor_author_rel s ba = Some a -> Author_id a = author_id ba.
Proof.
  unfold BookAuthor_author_rel. intros H. apply find_some in H.
  destruct H as [_ H]. apply Z.eqb_eq. exact H.
Qed.

Lemma book_rel_id s ba b :
  BookAuthor_book_rel s ba = Some b -> Book_id b = book_id ba.
Proof.
  unfold BookAuthor_book_rel. intros H. apply find_some in H.
  destruct H as [_ H]. apply Z.eqb_eq. exact H.
Qed.

Lemma traverse_option_map {A B C} (g : A -> option B) (h : B -> C) l :
  traverse (fun x => option_map h (g x)) l = option_map (map h) (traverse g l).
Proof.
  induction l as [| x rest IH]; cbn [traverse]; [reflexivity |].
  rewrite IH. destruct (g x), (traverse g rest); reflexivity.
Qed.

Lemma traverse_None {A B C} (g : A -> option B) (k : A -> option C) l :
  (forall x, In x l -> g x = None -> k x = None) ->
  traverse g l = None -> traverse k l = None.
Proof.
  induction l as [| x rest IH]; intros H Hg; cbn in *; [discriminate |].
  destruct (g x) eqn:Hx.
  - destruct (traverse g rest) eqn:Hr; [discriminate |].
    rewrite IH; auto. destruct (k x); reflexivity.
  - rewrite (H x (or_introl eq_refl) Hx). reflexivity.
Qed.

Lemma dict_entries_nil exclude by_alias :
  dict_entries exclude by_alias [] = Return [].
Proof. reflexivity. Qed.

Lemma dict_entries_cons exclude by_alias name alias x rest :
  dict_entries exclude by_alias ((name, alias, x) :: rest) =
    if mem name exclude then dict_entries exclude by_alias rest
    else (j <- dict_value [] by_alias x ;;
          d <- dict_entries exclude by_alias rest ;;
          Return ((if by_alias then alias else name, j) :: d))%result.
Proof. reflexivity. Qed.

Lemma validate_t_List getattr t l :
  validate getattr (t_List t) (PList l) =
    (vs <- validate_items (fun o => validate getattr t (PObj o)) l false ;;
     Return (VList vs))%result.
Proof. reflexivity. Qed.

(** ** The schemas of the four files, evaluated *)

(** Runs the interpreter on a schema of the files and an object whose class
    is known, leaving the lookups in the store and the loops over its rows
    in place. *)
Ltac evaluate_schema :=
  cbv beta iota zeta delta
    [validate from_orm validate_model populate orm_mode
     allow_population_by_field_name getter_dict GetterDict required
     int_validator str_validator rbind of_option option_map
     subclass fields_app
     WithExtraData1.getattr WithExtraData2.getattr WithExtraData3.getattr
     WithExtraData4.getattr getattr_relationships Row_getattr getattr_of
     pyval_of_option pyval_of_scalar association_proxy
     WithExtraData1.Config_ WithExtraData1.AuthorBase WithExtraData1.BookBase
     WithExtraData1.BookSchema WithExtraData1.AuthorSchema
     WithExtraData2.Config_ WithExtraData2.AuthorBase WithExtraData2.BookBase
     WithExtraData2.BookSchema WithExtraData2.AuthorSchema
     WithExtraData2.Book_authors WithExtraData2.Author_books
     WithExtraData3.BookAuthorGetter WithExtraData3.AuthorBookGetter
     WithExtraData3.BookAuthorSchema WithExtraData3.AuthorBookSchema
     WithExtraData3.BookSchema WithExtraData3.AuthorSchema
     WithExtraData4.Config_ WithExtraData4.RelatedBookSchema
     WithExtraData4.RelatedAuthorSchema WithExtraData4.AuthorBookSchema
     WithExtraData4.BookAuthorSchema WithExtraData4.BookSchema
     WithExtraData4.AuthorSchema
     route_getattr route_model route_exclude route_by_alias BookSchema_of
     AuthorSchema_of failure
     author_inst book_inst author_inst4 book_inst4 Book_inst Author_inst
     resolve_author resolve_book fst snd
     assoc mem existsb String.eqb Ascii.eqb Bool.eqb negb andb orb].

(** *** One association *)

Lemma author_entry_valid_1 s ba :
  validate (WithExtraData1.getattr s) (t_Model WithExtraData1.AuthorBase)
           (PObj (OBookAuthor ba)) =
  of_option ValidationError
    (option_map (author_inst with_extra_data_1) (resolve_author s ba)).
Proof. evaluate_schema. destruct (BookAuthor_author_rel s ba); reflexivity. Qed.

Lemma book_entry_valid_1 s ba :
  validate (WithExtraData1.getattr s) (t_Model WithExtraData1.BookBase)
           (PObj (OBookAuthor ba)) =
  of_option ValidationError
    (option_map (book_inst with_extra_data_1) (resolve_book s ba)).
Proof. evaluate_schema. destruct (BookAuthor_book_rel s ba); reflexivity. Qed.

Lemma author_entry_valid_2 s temp :
  validate (WithExtraData2.getattr s) (t_Model WithExtraData2.AuthorBase)
    (PObj (ORow [("id", SInt (Author_id (fst temp)));
                 ("name", SStr (Author_name (fst temp)));
                 ("blurb", SStr (blurb (snd temp)));
                 ("book_id", SInt (book_id (snd temp)))])) =
  Return (author_inst with_extra_data_2 (snd temp, fst temp)).
Proof. reflexivity. Qed.

Lemma book_entry_valid_2 s temp :
  validate (WithExtraData2.getattr s) (t_Model WithExtraData2.BookBase)
    (PObj (ORow [("id", SInt (Book_id (fst temp)));
                 ("title", SStr (Book_title (fst temp)));
                 ("blurb", SStr (blurb (snd temp)));
                 ("author_id", SInt (author_id (snd temp)))])) =
  Return (book_inst with_extra_data_2 (snd temp, fst temp)).
Proof. reflexivity. Qed.

Lemma author_entry_valid_3 s ba :
  validate (WithExtraData3.getattr s) (t_Model WithExtraData3.BookAuthorSchema)
           (PObj (OBookAuthor ba)) =
  of_option AttributeError
    (option_map (author_inst with_extra_data_3) (resolve_author s ba)).
Proof. evaluate_schema. destruct (BookAuthor_author_rel s ba); reflexivity. Qed.

Lemma book_entry_valid_3 s ba :
  validate (WithExtraData3.getattr s) (t_Model WithExtraData3.AuthorBookSchema)
           (PObj (OBookAuthor ba)) =
  of_option AttributeError
    (option_map (book_inst with_extra_data_3) (resolve_book s ba)).
Proof. evaluate_schema. destruct (BookAuthor_book_rel s ba); reflexivity. Qed.

Lemma author_entry_valid_4 s ba :
  validate (WithExtraData4.getattr s) (t_Model WithExtraData4.BookAuthorSchema)
           (PObj (OBookAuthor ba)) =
  Return (author_inst4 s ba).
Proof. evaluate_schema. destruct (BookAuthor_author_rel s ba); reflexivity. Qed.

Lemma book_entry_valid_4 s ba :
  validate (WithExtraData4.getattr s) (t_Model WithExtraData4.AuthorBookSchema)
           (PObj (OBookAuthor ba)) =
  Return (book_inst4 s ba).
Proof. evaluate_schema. destruct (BookAuthor_book_rel s ba); reflexivity. Qed.

Lemma author_nested4_dict s ba :
  dict_value [] true (author_inst4 s ba) = Return (author_nested4 s ba).
Proof.
  unfold author_inst4, author_nested4.
  destruct (BookAuthor_author_rel s ba); reflexivity.
Qed.

Lemma book_nested4_dict s ba :
  dict_value [] true (book_inst4 s ba) = Return (book_nested4 s ba).
Proof.
  unfold book_inst4, book_nested4.
  destruct (BookAuthor_book_rel s ba); reflexivity.
Qed.

(** *** One book, one author *)

Lemma Book_valid v s b :
  validate (route_getattr v s) (t_Model (BookSchema_of v)) (PObj (OBook b)) =
  of_option (failure v) (Book_inst v s b).
Proof.
  destruct v; evaluate_schema.
  - rewrite (validate_items_traverse _ OBookAuthor
               (fun ba => option_map (author_inst with_extra_data_1)
                                     (resolve_author s ba)) ValidationError).
    2:{ intros x _. exact (author_entry_valid_1 s x). }
    rewrite traverse_option_map. unfold Book_pairs, resolve_author.
    destruct (traverse _ _); reflexivity.
  - unfold Book_pairs. rewrite map_map.
    rewrite (validate_items_traverse _
               (fun temp =>
                  ORow [("id", SInt (Author_id (fst temp)));
                        ("name", SStr (Author_name (fst temp)));
                        ("blurb", SStr (blurb (snd temp)));
                        ("book_id", SInt (book_id (snd temp)))])
               (fun temp => Some (author_inst with_extra_data_2 (snd temp, fst temp)))
               ValidationError).
    2:{ intros x _. exact (author_entry_valid_2 s x). }
    rewrite traverse_map. reflexivity.
  - rewrite (validate_items_traverse _ OBookAuthor
               (fun ba => option_map (author_inst with_extra_data_3)
                                     (resolve_author s ba)) AttributeError).
    2:{ intros x _. exact (author_entry_valid_3 s x). }
    rewrite traverse_option_map. unfold Book_pairs, resolve_author.
    destruct (traverse _ _); reflexivity.
  - rewrite (validate_items_traverse _ OBookAuthor
               (fun ba => Some (author_inst4 s ba)) TypeError).
    2:{ intros x _. exact (author_entry_valid_4 s x). }
    rewrite traverse_map. reflexivity.
Qed.

Lemma Author_valid v s a :
  validate (route_getattr v s) (t_Model (AuthorSchema_of v)) (PObj (OAuthor a)) =
  of_option (failure v) (Author_inst v s a).
Proof.
  destruct v; evaluate_schema.
  - rewrite (validate_items_traverse _ OBookAuthor
               (fun ba => option_map (book_inst with_extra_data_1)
                                     (resolve_book s ba)) ValidationError).
    2:{ intros x _. exact (book_entry_valid_1 s x). }
    rewrite traverse_option_map. unfold Author_pairs, resolve_book.
    destruct (traverse _ _); reflexivity.
  - unfold Author_pairs. rewrite map_map.
    rewrite (validate_items_traverse _
               (fun temp =>
                  ORow [("id", SInt (Book_id (fst temp)));
                        ("title", SStr (Book_title (fst temp)));
                        ("blurb", SStr (blurb (snd temp)));
                        ("author_id", SInt (author_id (snd temp)))])
               (fun temp => Some (book_inst with_extra_data_2 (snd temp, fst temp)))
               ValidationError).
    2:{ intros x _. exact (book_entry_valid_2 s x). }
    rewrite traverse_map. reflexivity.
  - rewrite (validate_items_traverse _ OBookAuthor
               (fun ba => option_map (book_inst with_extra_data_3)
                                     (resolve_book s ba)) AttributeError).
    2:{ intros x _. exact (book_entry_valid_3 s x). }
    rewrite traverse_option_map. unfold Author_pairs, resolve_book.
    destruct (traverse _ _); reflexivity.
  - rewrite (validate_items_traverse _ OBookAuthor
               (fun ba => Some (book_inst4 s ba)) TypeError).
    2:{ intros x _. exact (book_entry_valid_4 s x). }
    rewrite traverse_map. reflexivity.
Qed.

Lemma Book_encoded v s b y :
  Book_inst v s b = Some y ->
  jsonable_encoder (route_exclude v) (route_by_alias v) y =
    of_option (failure v) (shaped_Book v s b).
Proof.
  intros Hy. unfold shaped_Book.
  destruct v; cbn [Book_inst route_exclude route_by_alias failure] in *.
  1-3: destruct (Book_pairs _ s b) as [ps |]; [| discriminate];
       injection Hy as <-; cbn [option_map of_option];
       rewrite jsonable_encoder_VModel, !dict_entries_cons, dict_entries_nil,
         dict_value_VList;
       match goal with
       | |- context [author_inst ?v] =>
           rewrite (dict_items_map _ _ (author_entry v));
           [reflexivity | intros p _; reflexivity]
       end.
  injection Hy as <-.
  rewrite jsonable_encoder_VModel, !dict_entries_cons, dict_entries_nil,
    dict_value_VList.
  rewrite (dict_items_map _ _ (author_nested4 s));
    [| intros ba _; apply author_nested4_dict].
  cbn [mem existsb dict_value rbind].
  unfold WithExtraData4.BookSchema_dict.
  cbn [getitem assoc String.eqb Ascii.eqb Bool.eqb rbind for_in].
  rewrite (for_each_traverse _ _
             (fun ba => option_map (author_entry with_extra_data_4)
                                   (resolve_author s ba)) TypeError).
  2:{ intros ba _. unfold author_nested4, resolve_author.
      destruct (BookAuthor_author_rel s ba); reflexivity. }
  rewrite traverse_option_map. unfold Book_pairs.
  destruct (traverse _ _); reflexivity.
Qed.

Lemma Author_encoded v s a y :
  Author_inst v s a = Some y ->
  jsonable_encoder (route_exclude v) (route_by_alias v) y =
    of_option (failure v) (shaped_Author v s a).
Proof.
  intros Hy. unfold shaped_Author.
  destruct v; cbn [Author_inst route_exclude route_by_alias failure] in *.
  1-3: destruct (Author_pairs _ s a) as [ps |]; [| discriminate];
       injection Hy as <-; cbn [option_map of_option];
       rewrite jsonable_encoder_VModel, !dict_entries_cons, dict_entries_nil,
         dict_value_VList;
       match goal with
       | |- context [book_inst ?v] =>
           rewrite (dict_items_map _ _ (book_entry v));
           [reflexivity | intros p _; reflexivity]
       end.
  injection Hy as <-.
  rewrite jsonable_encoder_VModel, !dict_entries_cons, dict_entries_nil,
    dict_value_VList.
  rewrite (dict_items_map _ _ (book_nested4 s));
    [| intros ba _; apply book_nested4_dict].
  cbn [mem existsb dict_value rbind].
  unfold WithExtraData4.AuthorSchema_dict.
  cbn [getitem assoc String.eqb Ascii.eqb Bool.eqb rbind for_in].
  rewrite (for_each_traverse _ _
             (fun ba => option_map (book_entry with_extra_data_4)
                                   (resolve_book s ba)) TypeError).
  2:{ intros ba _. unfold book_nested4, resolve_book.
      destruct (BookAuthor_book_rel s ba); reflexivity. }
  rewrite traverse_option_map. unfold Author_pairs.
  destruct (traverse _ _); reflexivity.
Qed.

Lemma Book_inst_None v s b : Book_inst v s b = None -> shaped_Book v s b = None.
Proof.
  unfold shaped_Book. destruct v; cbn [Book_inst];
    destruct (Book_pairs _ s b); first [discriminate | reflexivity].
Qed.

Lemma Author_inst_None v s a :
  Author_inst v s a = None -> shaped_Author v s a = None.
Proof.
  unfold shaped_Author. destruct v; cbn [Author_inst];
    destruct (Author_pairs _ s a); first [discriminate | reflexivity].
Qed.

(** *** The four routes *)

Lemma serialize_Book v s id b :
  serialize v s (GET_book id) (PObj (OBook b)) =
    of_option (failure v) (shaped_Book v s b).
Proof.
  unfold serialize, serialize_response. cbn [route_model].
  rewrite Book_valid.
  destruct (Book_inst v s b) as [y |] eqn:Hy; cbn [of_option rbind].
  - apply Book_encoded. exact Hy.
  - rewrite (Book_inst_None _ _ _ Hy). reflexivity.
Qed.

Lemma serialize_Author v s id a :
  serialize v s (GET_author id) (PObj (OAuthor a)) =
    of_option (failure v) (shaped_Author v s a).
Proof.
  unfold serialize, serialize_response. cbn [route_model].
  rewrite Author_valid.
  destruct (Author_inst v s a) as [y |] eqn:Hy; cbn [of_option rbind].
  - apply Author_encoded. exact Hy.
  - rewrite (Author_inst_None _ _ _ Hy). reflexivity.
Qed.

Lemma serialize_Books v s l :
  serialize v s GET_books (PList (map OBook l)) =
    (js <- of_option (failure v) (traverse (shaped_Book v s) l) ;;
     Return (JList js))%result.
Proof.
  unfold serialize, serialize_response. cbn [route_model].
  rewrite validate_t_List.
  rewrite (validate_items_traverse _ OBook (Book_inst v s) (failure v));
    [| intros b _; apply Book_valid].
  destruct (traverse (Book_inst v s) l) as [ys |] eqn:Hys; cbn [rbind].
  - rewrite jsonable_encoder_VList.
    rewrite (encode_items_traverse _ _ _ (shaped_Book v s) (failure v) l ys Hys);
      [reflexivity |].
    intros b y _. apply Book_encoded.
  - rewrite (traverse_None _ (shaped_Book v s) l
               (fun b _ => Book_inst_None v s b) Hys).
    reflexivity.
Qed.

Lemma serialize_Authors v s l :
  serialize v s GET_authors (PList (map OAuthor l)) =
    (js <- of_option (failure v) (traverse (shaped_Author v s) l) ;;
     Return (JList js))%result.
Proof.
  unfold serialize, serialize_response. cbn [route_model].
  rewrite validate_t_List.
  rewrite (validate_items_traverse _ OAuthor (Author_inst v s) (failure v));
    [| intros a _; apply Author_valid].
  destruct (traverse (Author_inst v s) l) as [ys |] eqn:Hys; cbn [rbind].
  - rewrite jsonable_encoder_VList.
    rewrite (encode_items_traverse _ _ _ (shaped_Author v s) (failure v) l ys Hys);
      [reflexivity |].
    intros a y _. apply Author_encoded.
  - rewrite (traverse_None _ (shaped_Author v s) l
               (fun a _ => Author_inst_None v s a) Hys).
    reflexivity.
Qed.

(** What the schemas of a variant compute on a route is what the direct
    description gives, on every database. *)
Theorem body_of_shaped v s r : body_of v s r = shaped v s r.
Proof.
  rewrite body_of_eq.
  destruct r as [id | | id |]; cbn [select shaped].
  - destruct (one _) as [b | e]; cbn [rbind]; [apply serialize_Book | reflexivity].
  - cbn [rbind]. apply serialize_Books.
  - destruct (one _) as [a | e]; cbn [rbind]; [apply serialize_Author | reflexivity].
  - cbn [rbind]. apply serialize_Authors.
Qed.

Lemma response_of_shaped v s r : response_of v s r = respond (shaped v s r).
Proof.
  unfold response_of, handle. rewrite app_run. cbn [fst database].
  rewrite <- body_of_eq, body_of_shaped. reflexivity.
Qed.

(** ** The shape of a response body *)

Lemma respond_200 (out : result json) body :
  respond out = HTTP_200 body -> out = Return body.
Proof.
  destruct out; cbn; intros H; [injection H as <-; reflexivity | discriminate].
Qed.

Lemma response_200_shaped v s r body :
  response_of v s r = HTTP_200 body -> shaped v s r = Return body.
Proof. rewrite response_of_shaped. apply respond_200. Qed.

Lemma of_option_Return {A} e (x : option A) a :
  of_option e x = Return a -> x = Some a.
Proof.
  destruct x; cbn; intros H; [injection H as <-; reflexivity | discriminate].
Qed.

Lemma one_In {A} (rows : list A) x : one rows = Return x -> In x rows.
Proof.
  destruct rows as [| y [| z rest]]; cbn; intros H; try discriminate.
  injection H as <-. left. reflexivity.
Qed.

Lemma shaped_Book_Some v s b o :
  shaped_Book v s b = Some o ->
  exists ps, Book_pairs v s b = Some ps /\
    o = JDict [("id", JInt (Book_id b)); ("title", JStr (Book_title b));
               ("authors", JList (map (author_entry v) ps))].
Proof.
  unfold shaped_Book. destruct (Book_pairs v s b) as [ps |]; cbn; intros H;
    [| discriminate].
  injection H as <-. exists ps. split; reflexivity.
Qed.

Lemma shaped_Author_Some v s a o :
  shaped_Author v s a = Some o ->
  exists ps, Author_pairs v s a = Some ps /\
    o = JDict [("id", JInt (Author_id a)); ("name", JStr (Author_name a));
               ("books", JList (map (book_entry v) ps))].
Proof.
  unfold shaped_Author. destruct (Author_pairs v s a) as [ps |]; cbn; intros H;
    [| discriminate].
  injection H as <-. exists ps. split; reflexivity.
Qed.

Lemma traverse_objects {A} (g : A -> option json) (P : json -> Prop) l js :
  traverse g l = Some js ->
  (forall x j, In x l -> g x = Some j -> P j) ->
  Forall P js.
Proof.
  intros H HP. apply traverse_Some in H.
  induction H as [| x j l' js' Hx _ IH]; constructor.
  - apply (HP x j); [left; reflexivity | exact Hx].
  - apply IH. intros x' j' Hin. apply HP. right. exact Hin.
Qed.

(** Every object of a body is the shaped form of a row the route selected. *)
Lemma shaped_objects v s r body :
  shaped v s r = Return body -> Forall (shaped_object v s) (top_level_objects body).
Proof.
  destruct r as [id | | id |]; cbn [shaped]; intros H.
  - destruct (one _) as [b | e] eqn:Hone; cbn [rbind] in H; [| discriminate].
    apply of_option_Return, shaped_Book_Some in H. destruct H as (ps & Hps & ->).
    cbn [top_level_objects]. constructor; [| constructor].
    left. exists b, ps. repeat split; try assumption.
    apply one_In in Hone. apply filter_In in Hone. tauto.
  - destruct (traverse _ _) as [js |] eqn:Hjs; cbn [of_option rbind] in H;
      [| discriminate].
    injection H as <-. cbn [top_level_objects].
    apply (traverse_objects _ _ _ _ Hjs). intros b j Hb Hj.
    apply shaped_Book_Some in Hj. destruct Hj as (ps & Hps & ->).
    left. exists b, ps. repeat split; assumption.
  - destruct (one _) as [a | e] eqn:Hone; cbn [rbind] in H; [| discriminate].
    apply of_option_Return, shaped_Author_Some in H. destruct H as (ps & Hps & ->).
    cbn [top_level_objects]. constructor; [| constructor].
    right. exists a, ps. repeat split; try assumption.
    apply one_In in Hone. apply filter_In in Hone. tauto.
  - destruct (traverse _ _) as [js |] eqn:Hjs; cbn [of_option rbind] in H;
      [| discriminate].
    injection H as <-. cbn [top_level_objects].
    apply (traverse_objects _ _ _ _ Hjs). intros a j Ha Hj.
    apply shaped_Author_Some in Hj. destruct Hj as (ps & Hps & ->).
    right. exists a, ps. repeat split; assumption.
Qed.

Lemma related_list_Book i t l :
  related_list (JDict [("id", i); ("title", t); ("authors", JList l)]) = l.
Proof. cbn. apply app_nil_r. Qed.

Lemma related_list_Author i n l :
  related_list (JDict [("id", i); ("name", n); ("books", JList l)]) = l.
Proof. reflexivity. Qed.

(** A property of every flat record is a property of every list entry of
    every body. *)
Lemma entries_all (P : json -> Prop) v s r body :
  (forall p, P (author_entry v p)) ->
  (forall p, P (book_entry v p)) ->
  shaped v s r = Return body ->
  Forall P (list_entries body).
Proof.
  intros Hauthor Hbook H. apply shaped_objects in H.
  unfold list_entries. induction H as [| o os Ho _ IH]; cbn [flat_map].
  - constructor.
  - apply Forall_app. split; [| exact IH].
    destruct Ho as [(b & ps & _ & _ & ->) | (a & ps & _ & _ & ->)].
    + rewrite related_list_Book. apply Forall_forall. intros e He.
      apply in_map_iff in He. destruct He as (p & <- & _). apply Hauthor.
    + rewrite related_list_Author. apply Forall_forall. intros e He.
      apply in_map_iff in He. destruct He as (p & <- & _). apply Hbook.
Qed.

(** C6.  In every variant and on every database, every entry of an [authors]
    or [books] list of a 200 response is a flat object (its values are
    scalars) without the keys [book_id], [author_id], [author] and [book]:
    the foreign keys are not emitted and no association sub-object is
    nested. *)
Theorem entries_merged_flat v s r body :
  response_of v s r = HTTP_200 body ->
  Forall merged_flat (list_entries body).
Proof.
  intros H. apply response_200_shaped in H.
  apply (entries_all merged_flat v s r body); [| | exact H];
    intros p; destruct v; repeat split.
Qed.

Lemma entries_merged_flat_witness :
  exists body,
    response_of with_extra_data_4 seeded (GET_book 1) = HTTP_200 body /\
    List.length (list_entries body) = 2%nat /\
    Forall merged_flat (list_entries body).
Proof.
  eexists. split; [reflexivity |]. split; [reflexivity |].
  apply (entries_merged_flat with_extra_data_4 seeded (GET_book 1)).
  reflexivity.
Defined.

(** C7.  In every variant and on every database, every top-level object of a
    200 response is a dictionary with the keys [id], [title], [authors] or
    [id], [name], [books] and nothing else: it has no [blurb] of its own,
    also in variant 1 whose [BookBase] and [AuthorBase] declare one. *)
Theorem no_top_level_blurb v s r body :
  response_of v s r = HTTP_200 body ->
  Forall (fun o =>
            exists d, o = JDict d /\
              (keys d = ["id"; "title"; "authors"] \/
               keys d = ["id"; "name"; "books"]) /\
              has_key "blurb" o = false)
         (top_level_objects body).
Proof.
  intros H. apply response_200_shaped, shaped_objects in H.
  eapply Forall_impl; [| exact H].
  intros o [(b & ps & _ & _ & ->) | (a & ps & _ & _ & ->)];
    eexists; (split; [reflexivity |]); split; auto.
Qed.

Lemma no_top_level_blurb_witness :
  exists body,
    response_of with_extra_data_1 seeded GET_books = HTTP_200 body /\
    List.length (top_level_objects body) = 2%nat /\
    Forall (fun o =>
              exists d, o = JDict d /\
                (keys d = ["id"; "title"; "authors"] \/
                 keys d = ["id"; "name"; "books"]) /\
                has_key "blurb" o = false)
           (top_level_objects body).
Proof.
  eexists. split; [reflexivity |]. split; [reflexivity |].
  apply (no_top_level_blurb with_extra_data_1 seeded GET_books).
  reflexivity.
Defined.

(** In variant 1 the model instance does hold a top-level [blurb] ([None]);
    it is the route's [response_model_exclude] that removes it. *)
Example blurb_removed_by_exclude :
  serialize_response (WithExtraData1.getattr seeded)
    (t_Model WithExtraData1.BookSchema) [] false
    (PObj (OBook (mkBook 2 "How To Make Friends In Your 30s"))) =
  Return (JDict
    [("id", JInt 2); ("title", JStr "How To Make Friends In Your 30s");
     ("blurb", JNull);
     ("authors",
      JList [JDict [("id", JInt 1); ("name", JStr "Blu Renolds");
                    ("blurb", JStr "Blue wrote chapters 1-3")];
             JDict [("id", JInt 3); ("name", JStr "Alyssa Wyatt");
                    ("blurb", JStr "Alyssa wrote chapter 4")]])]).
Proof. reflexivity. Qed.

(** ** Referential integrity and the [Optional] sub-objects of variant 4 *)

Lemma traverse_total {A B} (g : A -> option B) l :
  (forall x, In x l -> g x <> None) -> exists ys, traverse g l = Some ys.
Proof.
  induction l as [| x rest IH]; intros H; cbn [traverse].
  - exists []. reflexivity.
  - destruct (g x) as [y |] eqn:Hx.
    + destruct IH as [ys Hys]; [intros x' Hx'; apply H; right; exact Hx' |].
      rewrite Hys. exists (y :: ys). reflexivity.
    + exfalso. apply (H x); [left; reflexivity | exact Hx].
Qed.

Lemma has_author_rel s ba :
  has_author s (author_id ba) = true -> BookAuthor_author_rel s ba <> None.
Proof.
  unfold has_author, BookAuthor_author_rel. intros H Hnone.
  apply existsb_exists in H. destruct H as (a & Ha & Heq).
  rewrite (find_none _ _ Hnone a Ha) in Heq. discriminate.
Qed.

Lemma has_book_rel s ba :
  has_book s (book_id ba) = true -> BookAuthor_book_rel s ba <> None.
Proof.
  unfold has_book, BookAuthor_book_rel. intros H Hnone.
  apply existsb_exists in H. destruct H as (b & Hb & Heq).
  rewrite (find_none _ _ Hnone b Hb) in Heq. discriminate.
Qed.

Lemma Book_pairs_total v s b :
  references_exist s -> exists ps, Book_pairs v s b = Some ps.
Proof.
  intros Href.
  assert (H : exists ps, traverse (resolve_author s) (Book_authors_rel s b) = Some ps).
  { apply traverse_total. intros ba Hba. unfold resolve_author.
    apply filter_In in Hba. destruct Hba as [Hba _].
    destruct (Href ba Hba) as [_ Ha]. apply has_author_rel in Ha.
    destruct (BookAuthor_author_rel s ba); [discriminate | contradiction]. }
  destruct v; cbn [Book_pairs]; eauto.
Qed.

Lemma Author_pairs_total v s a :
  references_exist s -> exists ps, Author_pairs v s a = Some ps.
Proof.
  intros Href.
  assert (H : exists ps, traverse (resolve_book s) (Author_books_rel s a) = Some ps).
  { apply traverse_total. intros ba Hba. unfold resolve_book.
    apply filter_In in Hba. destruct Hba as [Hba _].
    destruct (Href ba Hba) as [Hb _]. apply has_book_rel in Hb.
    destruct (BookAuthor_book_rel s ba); [discriminate | contradiction]. }
  destruct v; cbn [Author_pairs]; eauto.
Qed.

(** With referential integrity the serialization of whatever a route
    selected returns, in every variant. *)
Lemma serialize_total v s r content :
  references_exist s ->
  select s r = Return content ->
  exists body, serialize v s r content = Return body.
Proof.
  intros Href Hsel.
  destruct r as [id | | id |]; cbn [select] in Hsel.
  - destruct (one _) as [b | e]; cbn [rbind] in Hsel; [| discriminate].
    injection Hsel as <-. rewrite serialize_Book. unfold shaped_Book.
    destruct (Book_pairs_total v s b Href) as [ps ->]. cbn. eauto.
  - injection Hsel as <-. rewrite serialize_Books.
    destruct (traverse_total (shaped_Book v s) (tbl_books s)) as [js ->].
    + intros b _. unfold shaped_Book.
      destruct (Book_pairs_total v s b Href) as [ps ->]. discriminate.
    + cbn. eauto.
  - destruct (one _) as [a | e]; cbn [rbind] in Hsel; [| discriminate].
    injection Hsel as <-. rewrite serialize_Author. unfold shaped_Author.
    destruct (Author_pairs_total v s a Href) as [ps ->]. cbn. eauto.
  - injection Hsel as <-. rewrite serialize_Authors.
    destruct (traverse_total (shaped_Author v s) (tbl_authors s)) as [js ->].
    + intros a _. unfold shaped_Author.
      destruct (Author_pairs_total v s a Href) as [ps ->]. discriminate.
    + cbn. eauto.
Qed.

Lemma one_Raise {A} (rows : list A) e :
  one rows = Raise e -> e = NoResultFound \/ e = MultipleResultsFound.
Proof.
  destruct rows as [| x [| y rest]]; cbn; intros H; try discriminate;
    injection H as <-; auto.
Qed.

(** C10.  In variant 4, on a database where every association row references
    an existing book and an existing author: the [Optional] sub-object of an
    association is never [None]; the serialization of every entity a route
    fetched returns a body; and the only exceptions a request can end with
    are those of the lookup, never the [TypeError] of subscripting [None]. *)
Theorem optional_subobject_never_None s :
  references_exist s ->
  (forall ba, In ba (tbl_book_authors s) ->
     BookAuthor_author_rel s ba <> None /\ BookAuthor_book_rel s ba <> None) /\
  (forall r content, select s r = Return content ->
     exists body, serialize with_extra_data_4 s r content = Return body) /\
  (forall r e, body_of with_extra_data_4 s r = Raise e ->
     e = NoResultFound \/ e = MultipleResultsFound).
Proof.
  intros Href. repeat split.
  - apply has_author_rel. apply (Href ba H).
  - apply has_book_rel. apply (Href ba H).
  - intros r content. apply serialize_total. exact Href.
  - intros r e. rewrite body_of_eq.
    destruct (select s r) as [content |] eqn:Hsel; cbn [rbind].
    + destruct (serialize_total with_extra_data_4 s r content Href Hsel) as [body ->].
      discriminate.
    + intros H. injection H as <-.
      destruct r as [id | | id |]; cbn [select] in Hsel; try discriminate;
        destruct (one _) eqn:Hone; cbn [rbind] in Hsel; try discriminate;
        injection Hsel as <-; apply (one_Raise _ _ Hone).
Qed.

Lemma optional_subobject_never_None_witness :
  references_exist seeded /\
  (forall ba, In ba (tbl_book_authors seeded) ->
     BookAuthor_author_rel seeded ba <> None /\
     BookAuthor_book_rel seeded ba <> None) /\
  (forall r content, select seeded r = Return content ->
     exists body, serialize with_extra_data_4 seeded r content = Return body) /\
  (forall r e, body_of with_extra_data_4 seeded r = Raise e ->
     e = NoResultFound \/ e = MultipleResultsFound).
Proof.
  split; [exact seeded_references_exist |].
  apply (optional_subobject_never_None seeded). exact seeded_references_exist.
Defined.

(** Without referential integrity the [None] branch is reached and nothing
    guards it: the association of [dangling] has no author row, the schema
    accepts [author = None], and [a['author']['id']] raises. *)
Example dangling_author_raises :
  validate (WithExtraData4.getattr dangling)
           (t_Model WithExtraData4.BookAuthorSchema)
           (PObj (OBookAuthor (mkBookAuthor 1 7 "x"))) =
    Return (VModel default_dict
              [("blurb", "blurb", VStr "x"); ("author", "author", VNone)])
  /\ response_of with_extra_data_4 dangling (GET_book 1) = HTTP_500 TypeError.
Proof. split; reflexivity. Qed.

(** ** Entries and association rows *)

Lemma resolve_author_pairs s l ps :
  traverse (resolve_author s) l = Some ps ->
  map fst ps = l /\
  Forall (fun p => BookAuthor_author_rel s (fst p) = Some (snd p)) ps.
Proof.
  intros H. apply traverse_Some in H.
  induction H as [| ba p l' ps' Hp _ [IHl IHf]]; [split; constructor |].
  unfold resolve_author in Hp.
  destruct (BookAuthor_author_rel s ba) as [a |] eqn:Ha; [| discriminate].
  injection Hp as <-. cbn [map fst]. split; [f_equal; exact IHl |].
  constructor; [exact Ha | exact IHf].
Qed.

Lemma resolve_book_pairs s l ps :
  traverse (resolve_book s) l = Some ps ->
  map fst ps = l /\
  Forall (fun p => BookAuthor_book_rel s (fst p) = Some (snd p)) ps.
Proof.
  intros H. apply traverse_Some in H.
  induction H as [| ba p l' ps' Hp _ [IHl IHf]]; [split; constructor |].
  unfold resolve_book in Hp.
  destruct (BookAuthor_book_rel s ba) as [b |] eqn:Hb; [| discriminate].
  injection Hp as <-. cbn [map fst]. split; [f_equal; exact IHl |].
  constructor; [exact Hb | exact IHf].
Qed.

Lemma Forall2_map_fst {A B} (f : A * B -> json) ps (Q : A -> json -> Prop) :
  (forall p, In p ps -> Q (fst p) (f p)) ->
  Forall2 Q (map fst ps) (map f ps).
Proof.
  induction ps as [| p rest IH]; intros H; cbn [map]; constructor.
  - apply H. left. reflexivity.
  - apply IH. intros q Hq. apply H. right. exact Hq.
Qed.

(** In the variants that go through the relationship (1, 3 and 4) the
    [authors] list of a book has one entry per association row of the book,
    in the order of the rows, and each entry carries the id and the name of
    the author the row references and the blurb of that very row. *)
Theorem book_entries_follow_associations v s b o :
  v <> with_extra_data_2 ->
  shaped_Book v s b = Some o ->
  Forall2 (fun ba e =>
             get "id" e = Some (JInt (author_id ba)) /\
             get "blurb" e = Some (JStr (blurb ba)) /\
             exists a, BookAuthor_author_rel s ba = Some a /\
                       get "name" e = Some (JStr (Author_name a)))
          (Book_authors_rel s b) (related_list o).
Proof.
  intros Hv Ho. apply shaped_Book_Some in Ho. destruct Ho as (ps & Hps & ->).
  rewrite related_list_Book.
  assert (Hres : traverse (resolve_author s) (Book_authors_rel s b) = Some ps).
  { destruct v; try exact Hps. contradiction. }
  apply resolve_author_pairs in Hres. destruct Hres as [Hfst Hrel].
  rewrite <- Hfst. apply Forall2_map_fst.
  intros p Hp. rewrite Forall_forall in Hrel. specialize (Hrel p Hp).
  pose proof (author_rel_id _ _ _ Hrel) as Hid.
  destruct v; try contradiction; cbn; rewrite <- ?Hid; eauto.
Qed.

Theorem author_entries_follow_associations v s a o :
  v <> with_extra_data_2 ->
  shaped_Author v s a = Some o ->
  Forall2 (fun ba e =>
             get "id" e = Some (JInt (book_id ba)) /\
             get "blurb" e = Some (JStr (blurb ba)) /\
             exists b, BookAuthor_book_rel s ba = Some b /\
                       get "title" e = Some (JStr (Book_title b)))
          (Author_books_rel s a) (related_list o).
Proof.
  intros Hv Ho. apply shaped_Author_Some in Ho. destruct Ho as (ps & Hps & ->).
  rewrite related_list_Author.
  assert (Hres : traverse (resolve_book s) (Author_books_rel s a) = Some ps).
  { destruct v; try exact Hps. contradiction. }
  apply resolve_book_pairs in Hres. destruct Hres as [Hfst Hrel].
  rewrite <- Hfst. apply Forall2_map_fst.
  intros p Hp. rewrite Forall_forall in Hrel. specialize (Hrel p Hp).
  pose proof (book_rel_id _ _ _ Hrel) as Hid.
  destruct v; try contradiction; cbn; rewrite <- ?Hid; eauto.
Qed.

(** In variant 2 no entry has a [blurb], on any database: [AuthorBase] and
    [BookBase] declare [id] and [name] / [title] only, and the [blurb] column
    the SQL statement selects is dropped by the validation. *)
Theorem variant_2_never_emits_blurb s r body :
  response_of with_extra_data_2 s r = HTTP_200 body ->
  Forall (fun e => has_key "blurb" e = false) (list_entries body).
Proof.
  intros H. apply response_200_shaped in H.
  apply (entries_all _ with_extra_data_2 s r body); [| | exact H];
    intros p; reflexivity.
Qed.

(** ** The variants compared *)

Lemma json_list_eqb_map {A} (f g : A -> json) l :
  (forall x, In x l -> json_eqb (f x) (g x) = true) ->
  json_list_eqb (map f l) (map g l) = true.
Proof.
  induction l as [| x rest IH]; intros H; cbn [map json_list_eqb];
    [reflexivity |].
  rewrite (H x (or_introl eq_refl)), IH; [reflexivity |].
  intros y Hy. apply H. right. exact Hy.
Qed.

Lemma author_entry_3_4 p :
  json_eqb (author_entry with_extra_data_3 p) (author_entry with_extra_data_4 p)
  = true.
Proof. cbn. rewrite Z.eqb_refl, !String.eqb_refl. reflexivity. Qed.

Lemma book_entry_3_4 p :
  json_eqb (book_entry with_extra_data_3 p) (book_entry with_extra_data_4 p)
  = true.
Proof. cbn. rewrite Z.eqb_refl, !String.eqb_refl. reflexivity. Qed.

Lemma shaped_Book_3_4 s b :
  match shaped_Book with_extra_data_3 s b, shaped_Book with_extra_data_4 s b with
  | Some x, Some y => json_eqb x y = true
  | None, None => True
  | _, _ => False
  end.
Proof.
  unfold shaped_Book. cbn [Book_pairs].
  destruct (traverse _ _) as [ps |]; cbn [option_map]; [| exact I].
  cbn -[author_entry json_list_eqb].
  rewrite Z.eqb_refl, String.eqb_refl.
  change ((fix items (l l' : list json) : bool := _) ?a ?b) with (json_list_eqb a b).
  rewrite json_list_eqb_map; [reflexivity |].
  intros p _. apply author_entry_3_4.
Qed.

Lemma shaped_Author_3_4 s a :
  match shaped_Author with_extra_data_3 s a, shaped_Author with_extra_data_4 s a with
  | Some x, Some y => json_eqb x y = true
  | None, None => True
  | _, _ => False
  end.
Proof.
  unfold shaped_Author. cbn [Author_pairs].
  destruct (traverse _ _) as [ps |]; cbn [option_map]; [| exact I].
  cbn -[book_entry json_list_eqb].
  rewrite Z.eqb_refl, String.eqb_refl.
  change ((fix items (l l' : list json) : bool := _) ?a ?b) with (json_list_eqb a b).
  rewrite json_list_eqb_map; [reflexivity |].
  intros p _. apply book_entry_3_4.
Qed.

Lemma traverse_related {A} (g k : A -> option json) l :
  (forall x, match g x, k x with
             | Some a, Some b => json_eqb a b = true
             | None, None => True
             | _, _ => False
             end) ->
  match traverse g l, traverse k l with
  | Some js, Some js' => json_list_eqb js js' = true
  | None, None => True
  | _, _ => False
  end.
Proof.
  intros H. induction l as [| x rest IH]; cbn [traverse]; [reflexivity |].
  specialize (H x).
  destruct (g x), (k x); try contradiction;
    destruct (traverse g rest), (traverse k rest); try contradiction;
    try exact I.
  cbn [json_list_eqb]. rewrite H, IH. reflexivity.
Qed.

(** X17.  Variants 3 and 4 answer every request on every database alike: the
    same status and, for a 200, bodies that are equal as JSON data (variant 4
    writes the keys of an entry in another order). *)
Theorem variants_3_4_agree s r :
  response_eqb (response_of with_extra_data_3 s r)
               (response_of with_extra_data_4 s r) = true.
Proof.
  rewrite !response_of_shaped.
  destruct r as [id | | id |]; cbn [shaped].
  - destruct (one _) as [b | e]; cbn [rbind]; [| reflexivity].
    pose proof (shaped_Book_3_4 s b) as H.
    destruct (shaped_Book with_extra_data_3 s b),
             (shaped_Book with_extra_data_4 s b); try contradiction;
      [exact H | reflexivity].
  - pose proof (traverse_related _ _ (tbl_books s) (shaped_Book_3_4 s)) as H.
    destruct (traverse (shaped_Book with_extra_data_3 s) _),
             (traverse (shaped_Book with_extra_data_4 s) _); try contradiction;
      [exact H | reflexivity].
  - destruct (one _) as [a | e]; cbn [rbind]; [| reflexivity].
    pose proof (shaped_Author_3_4 s a) as H.
    destruct (shaped_Author with_extra_data_3 s a),
             (shaped_Author with_extra_data_4 s a); try contradiction;
      [exact H | reflexivity].
  - pose proof (traverse_related _ _ (tbl_authors s) (shaped_Author_3_4 s)) as H.
    destruct (traverse (shaped_Author with_extra_data_3 s) _),
             (traverse (shaped_Author with_extra_data_4 s) _); try contradiction;
      [exact H | reflexivity].
Qed.

Lemma author_entry_1_3 s ps l :
  traverse (resolve_author s) l = Some ps ->
  map (author_entry with_extra_data_1) ps = map (author_entry with_extra_data_3) ps.
Proof.
  intros H. apply resolve_author_pairs in H. destruct H as [_ H].
  apply map_ext_in. intros p Hp. rewrite Forall_forall in H.
  cbn [author_entry]. rewrite (author_rel_id _ _ _ (H p Hp)). reflexivity.
Qed.

Lemma book_entry_1_3 s ps l :
  traverse (resolve_book s) l = Some ps ->
  map (book_entry with_extra_data_1) ps = map (book_entry with_extra_data_3) ps.
Proof.
  intros H. apply resolve_book_pairs in H. destruct H as [_ H].
  apply map_ext_in. intros p Hp. rewrite Forall_forall in H.
  cbn [book_entry]. rewrite (book_rel_id _ _ _ (H p Hp)). reflexivity.
Qed.

Lemma shaped_Book_1_3 s b :
  shaped_Book with_extra_data_1 s b = shaped_Book with_extra_data_3 s b.
Proof.
  unfold shaped_Book. cbn [Book_pairs].
  destruct (traverse _ _) as [ps |] eqn:Hps; cbn [option_map]; [| reflexivity].
  rewrite (author_entry_1_3 _ _ _ Hps). reflexivity.
Qed.

Lemma shaped_Author_1_3 s a :
  shaped_Author with_extra_data_1 s a = shaped_Author with_extra_data_3 s a.
Proof.
  unfold shaped_Author. cbn [Author_pairs].
  destruct (traverse _ _) as [ps |] eqn:Hps; cbn [option_map]; [| reflexivity].
  rewrite (book_entry_1_3 _ _ _ Hps). reflexivity.
Qed.

(** X18.  Variants 1 and 3 send the same body, key for key, whenever either
    sends one, on every database. *)
Theorem variants_1_3_same_body s r body :
  response_of with_extra_data_1 s r = HTTP_200 body <->
  response_of with_extra_data_3 s r = HTTP_200 body.
Proof.
  rewrite !response_of_shaped.
  destruct r as [id | | id |]; cbn [shaped].
  - destruct (one _) as [b | e]; cbn [rbind]; [| split; discriminate].
    rewrite shaped_Book_1_3.
    destruct (shaped_Book with_extra_data_3 s b); cbn; split; auto; discriminate.
  - rewrite (traverse_ext _ _ _ (fun b _ => shaped_Book_1_3 s b)).
    destruct (traverse _ _); cbn; split; auto; discriminate.
  - destruct (one _) as [a | e]; cbn [rbind]; [| split; discriminate].
    rewrite shaped_Author_1_3.
    destruct (shaped_Author with_extra_data_3 s a); cbn; split; auto; discriminate.
  - rewrite (traverse_ext _ _ _ (fun a _ => shaped_Author_1_3 s a)).
    destruct (traverse _ _); cbn; split; auto; discriminate.
Qed.

(** ** Variant 2 on the seeded store *)

(** C2, at [GET /books/1] of with-extra-data-2.py.  The statement of
    [Book.authors] fetches the blurb of each pairing, yet the entries of the
    response are [{id, name}]: [AuthorBase] has no [blurb] field.  Variant 3
    answers the same request with [{id, name, blurb}] entries. *)
Theorem variant_2_book_entries_without_blurb :
  WithExtraData2.Book_authors seeded 1 =
    [ORow [("id", SInt 1); ("name", SStr "Blu Renolds");
           ("blurb", SStr "Blue wrote chapter 1"); ("book_id", SInt 1)];
     ORow [("id", SInt 2); ("name", SStr "Chip Egan");
           ("blurb", SStr "Chip wrote chapter 2"); ("book_id", SInt 1)]]
  /\ response_of with_extra_data_2 seeded (GET_book 1) =
       HTTP_200 (JDict
         [("id", JInt 1);
          ("title", JStr "Dead People Who'd Be Influencers Today");
          ("authors",
           JList [JDict [("id", JInt 1); ("name", JStr "Blu Renolds")];
                  JDict [("id", JInt 2); ("name", JStr "Chip Egan")]])])
  /\ response_of with_extra_data_3 seeded (GET_book 1) =
       HTTP_200 (JDict
         [("id", JInt 1);
          ("title", JStr "Dead People Who'd Be Influencers Today");
          ("authors",
           JList [JDict [("id", JInt 1); ("name", JStr "Blu Renolds");
                         ("blurb", JStr "Blue wrote chapter 1")];
                  JDict [("id", JInt 2); ("name", JStr "Chip Egan");
                         ("blurb", JStr "Chip wrote chapter 2")]])]).
Proof. repeat split. Qed.

(** C3, at [GET /authors/1] of with-extra-data-2.py.  Author 1 has two
    association rows with different blurbs; the two [books] entries of the
    response carry no blurb at all, where variants 1, 3 and 4 give each
    entry the blurb of its own row. *)
Theorem variant_2_author_entries_without_blurb :
  map blurb (Author_books_rel seeded (mkAuthor 1 "Blu Renolds")) =
    ["Blue wrote chapter 1"; "Blue wrote chapters 1-3"]
  /\ response_of with_extra_data_2 seeded (GET_author 1) =
       HTTP_200 (JDict
         [("id", JInt 1); ("name", JStr "Blu Renolds");
          ("books",
           JList [JDict [("id", JInt 1);
                         ("title", JStr "Dead People Who'd Be Influencers Today")];
                  JDict [("id", JInt 2);
                         ("title", JStr "How To Make Friends In Your 30s")]])])
  /\ match response_of with_extra_data_2 seeded (GET_author 1) with
     | HTTP_200 body => map (get "blurb") (list_entries body)
     | HTTP_500 _ => []
     end = [None; None]
  /\ match response_of with_extra_data_1 seeded (GET_author 1) with
     | HTTP_200 body => map (get "blurb") (list_entries body)
     | HTTP_500 _ => []
     end = [Some (JStr "Blue wrote chapter 1");
            Some (JStr "Blue wrote chapters 1-3")]
  /\ match response_of with_extra_data_3 seeded (GET_author 1) with
     | HTTP_200 body => map (get "blurb") (list_entries body)
     | HTTP_500 _ => []
     end = [Some (JStr "Blue wrote chapter 1");
            Some (JStr "Blue wrote chapters 1-3")]
  /\ match response_of with_extra_data_4 seeded (GET_author 1) with
     | HTTP_200 body => map (get "blurb") (list_entries body)
     | HTTP_500 _ => []
     end = [Some (JStr "Blue wrote chapter 1");
            Some (JStr "Blue wrote chapters 1-3")].
Proof. repeat split. Qed.

(** C4, at [GET /books/1].  The body of variant 2 is not the body of the
    other three variants, under equality of JSON data as well; variants 1
    and 3 send the same body and variant 4 one equal to it as JSON data. *)
Theorem variant_2_differs_from_the_others :
  response_of with_extra_data_2 seeded (GET_book 1) <>
    response_of with_extra_data_3 seeded (GET_book 1)
  /\ response_eqb (response_of with_extra_data_2 seeded (GET_book 1))
                  (response_of with_extra_data_1 seeded (GET_book 1)) = false
  /\ response_eqb (response_of with_extra_data_2 seeded (GET_book 1))
                  (response_of with_extra_data_3 seeded (GET_book 1)) = false
  /\ response_eqb (response_of with_extra_data_2 seeded (GET_book 1))
                  (response_of with_extra_data_4 seeded (GET_book 1)) = false
  /\ response_of with_extra_data_1 seeded (GET_book 1) =
       response_of with_extra_data_3 seeded (GET_book 1)
  /\ response_eqb (response_of with_extra_data_3 seeded (GET_book 1))
                  (response_of with_extra_data_4 seeded (GET_book 1)) = true.
Proof.
  split; [| repeat split].
  vm_compute. discriminate.
Qed.

(** * Further properties of the routes *)

(** ** Lookups by primary key *)

Lemma filter_key_unique {A} (key : A -> Z) (l : list A) (x : A) :
  NoDup (map key l) -> In x l -> filter (fun y => key y =? key x) l = [x].
Proof.
  induction l as [| y rest IH]; intros Hnd Hin; [contradiction |].
  cbn [map] in Hnd. inversion Hnd as [| k ks Hnotin Hrest]; subst.
  assert (Hnone : forall z, key z = key y -> In z rest -> False).
  { intros z Hz Hzin. apply Hnotin. rewrite <- Hz. apply in_map. exact Hzin. }
  cbn [filter]. destruct Hin as [-> | Hin].
  - rewrite Z.eqb_refl. f_equal.
    destruct (filter (fun y => key y =? key x) rest) as [| z zs] eqn:Hf;
      [reflexivity |].
    exfalso. assert (Hz : In z (filter (fun y => key y =? key x) rest))
      by (rewrite Hf; left; reflexivity).
    apply filter_In in Hz. destruct Hz as [Hzin Hz]. apply Z.eqb_eq in Hz.
    exact (Hnone z Hz Hzin).
  - destruct (key y =? key x) eqn:Hyx.
    + exfalso. apply Z.eqb_eq in Hyx. exact (Hnone x (eq_sym Hyx) Hin).
    + apply IH; assumption.
Qed.

Lemma filter_key_absent {A} (key : A -> Z) (l : list A) (id : Z) :
  existsb (fun y => key y =? id) l = false ->
  filter (fun y => key y =? id) l = [].
Proof.
  induction l as [| y rest IH]; cbn [existsb filter]; intros H; [reflexivity |].
  apply orb_false_elim in H. destruct H as [-> H]. apply IH. exact H.
Qed.

Lemma existsb_key_present {A} (key : A -> Z) (l : list A) (id : Z) :
  existsb (fun y => key y =? id) l = true ->
  exists x, In x l /\ key x = id.
Proof.
  intros H. apply existsb_exists in H. destruct H as (x & Hin & Hk).
  exists x. split; [exact Hin | apply Z.eqb_eq; exact Hk].
Qed.

Lemma shaped_GET_book v s b :
  NoDup (map Book_id (tbl_books s)) -> In b (tbl_books s) ->
  shaped v s (GET_book (Book_id b)) = of_option (failure v) (shaped_Book v s b).
Proof.
  intros Hnd Hin. cbn [shaped].
  rewrite (filter_key_unique Book_id _ b Hnd Hin). reflexivity.
Qed.

Lemma shaped_GET_author v s a :
  NoDup (map Author_id (tbl_authors s)) -> In a (tbl_authors s) ->
  shaped v s (GET_author (Author_id a)) = of_option (failure v) (shaped_Author v s a).
Proof.
  intros Hnd Hin. cbn [shaped].
  rewrite (filter_key_unique Author_id _ a Hnd Hin). reflexivity.
Qed.

(** X1.  With unique primary keys and referential integrity, in every
    variant: [GET /books/{id}] answers 200 exactly when a book has that id
    and 500 otherwise, and the body of the 200 carries the requested id and
    the title of that row; the same for [GET /authors/{id}] with the name. *)
Theorem singular_route_returns_its_row v s :
  unique_keys s -> references_exist s ->
  (forall id, status_code (response_of v s (GET_book id)) =
              if has_book s id then 200 else 500) /\
  (forall id, status_code (response_of v s (GET_author id)) =
              if has_author s id then 200 else 500) /\
  (forall b, In b (tbl_books s) ->
     exists body, response_of v s (GET_book (Book_id b)) = HTTP_200 body /\
       get "id" body = Some (JInt (Book_id b)) /\
       get "title" body = Some (JStr (Book_title b))) /\
  (forall a, In a (tbl_authors s) ->
     exists body, response_of v s (GET_author (Author_id a)) = HTTP_200 body /\
       get "id" body = Some (JInt (Author_id a)) /\
       get "name" body = Some (JStr (Author_name a))).
Proof.
  intros [Hbooks Hauthors] Href.
  assert (Hb : forall b, In b (tbl_books s) ->
     exists body, response_of v s (GET_book (Book_id b)) = HTTP_200 body /\
       get "id" body = Some (JInt (Book_id b)) /\
       get "title" body = Some (JStr (Book_title b))).
  { intros b Hin. rewrite response_of_shaped, (shaped_GET_book v s b Hbooks Hin).
    unfold shaped_Book. destruct (Book_pairs_total v s b Href) as [ps ->].
    eexists. repeat split. }
  assert (Ha : forall a, In a (tbl_authors s) ->
     exists body, response_of v s (GET_author (Author_id a)) = HTTP_200 body /\
       get "id" body = Some (JInt (Author_id a)) /\
       get "name" body = Some (JStr (Author_name a))).
  { intros a Hin. rewrite response_of_shaped, (shaped_GET_author v s a Hauthors Hin).
    unfold shaped_Author. destruct (Author_pairs_total v s a Href) as [ps ->].
    eexists. repeat split. }
  repeat split; try assumption.
  - intros id. unfold has_book.
    destruct (existsb _ _) eqn:Hex.
    + apply existsb_key_present in Hex. destruct Hex as (b & Hin & <-).
      destruct (Hb b Hin) as (body & -> & _). reflexivity.
    + rewrite response_of_shaped. cbn [shaped].
      rewrite (filter_key_absent Book_id _ id Hex). reflexivity.
  - intros id. unfold has_author.
    destruct (existsb _ _) eqn:Hex.
    + apply existsb_key_present in Hex. destruct Hex as (a & Hin & <-).
      destruct (Ha a Hin) as (body & -> & _). reflexivity.
    + rewrite response_of_shaped. cbn [shaped].
      rewrite (filter_key_absent Author_id _ id Hex). reflexivity.
Qed.

Lemma seeded_unique_keys : unique_keys seeded.
Proof.
  split; cbn; repeat constructor; cbn; intuition discriminate.
Qed.

Lemma singular_route_returns_its_row_witness :
  unique_keys seeded /\ references_exist seeded /\
  (forall id, status_code (response_of with_extra_data_3 seeded (GET_book id)) =
              if has_book seeded id then 200 else 500) /\
  (forall id, status_code (response_of with_extra_data_3 seeded (GET_author id)) =
              if has_author seeded id then 200 else 500) /\
  (forall b, In b (tbl_books seeded) ->
     exists body,
       response_of with_extra_data_3 seeded (GET_book (Book_id b)) = HTTP_200 body /\
       get "id" body = Some (JInt (Book_id b)) /\
       get "title" body = Some (JStr (Book_title b))) /\
  (forall a, In a (tbl_authors seeded) ->
     exists body,
       response_of with_extra_data_3 seeded (GET_author (Author_id a)) = HTTP_200 body /\
       get "id" body = Some (JInt (Author_id a)) /\
       get "name" body = Some (JStr (Author_name a))).
Proof.
  split; [exact seeded_unique_keys |]. split; [exact seeded_references_exist |].
  apply (singular_route_returns_its_row with_extra_data_3 seeded).
  - exact seeded_unique_keys.
  - exact seeded_references_exist.
Defined.

(** ** Collections *)



Lemma respond_of_option_200 e (x : option json) body :
  respond (of_option e x) = HTTP_200 body <-> x = Some body.
Proof.
  destruct x as [j |]; cbn; split; intros H; try discriminate;
    injection H as <-; reflexivity.
Qed.



(** ** Associations whose related row is missing *)

Lemma traverse_fails {A B} (g : A -> option B) l x :
  In x l -> g x = None -> traverse g l = None.
Proof.
  induction l as [| y rest IH]; intros Hin Hx; [contradiction |].
  cbn [traverse]. destruct Hin as [-> | Hin].
  - rewrite Hx. reflexivity.
  - rewrite (IH Hin Hx). destruct (g y); reflexivity.
Qed.

Lemma shaped_Book_dangling v s b ba :
  v <> with_extra_data_2 ->
  In ba (Book_authors_rel s b) -> BookAuthor_author_rel s ba = None ->
  shaped_Book v s b = None.
Proof.
  intros Hv Hin Hnone. unfold shaped_Book.
  assert (H : traverse (resolve_author s) (Book_authors_rel s b) = None).
  { apply (traverse_fails _ _ ba Hin). unfold resolve_author. rewrite Hnone.
    reflexivity. }
  destruct v; cbn [Book_pairs]; try rewrite H; try reflexivity. contradiction.
Qed.

Lemma shaped_Author_dangling v s a ba :
  v <> with_extra_data_2 ->
  In ba (Author_books_rel s a) -> BookAuthor_book_rel s ba = None ->
  shaped_Author v s a = None.
Proof.
  intros Hv Hin Hnone. unfold shaped_Author.
  assert (H : traverse (resolve_book s) (Author_books_rel s a) = None).
  { apply (traverse_fails _ _ ba Hin). unfold resolve_book. rewrite Hnone.
    reflexivity. }
  destruct v; cbn [Author_pairs]; try rewrite H; try reflexivity. contradiction.
Qed.

Lemma variant_2_always_shapes s :
  (exists js, traverse (shaped_Book with_extra_data_2 s) (tbl_books s) = Some js) /\
  (exists js, traverse (shaped_Author with_extra_data_2 s) (tbl_authors s) = Some js).
Proof.
  split; apply traverse_total; intros x _; discriminate.
Qed.

(** X3.  When an association of a book has no author row, the request for
    that book and the request for all books end with a 500 in the variants
    that go through the relationship, each with an exception of its own:
    variant 1 fails validation (the proxy gives [name = None]), variant 3
    reads an attribute of [None] in its getter, variant 4 subscripts [None]
    in its [dict].  Variant 2, whose SQL is an inner join, answers 200 to
    both. *)
Theorem association_without_author_row s id b ba :
  one (filter (fun x => Book_id x =? id) (tbl_books s)) = Return b ->
  In ba (Book_authors_rel s b) ->
  BookAuthor_author_rel s ba = None ->
  response_of with_extra_data_1 s (GET_book id) = HTTP_500 ValidationError /\
  response_of with_extra_data_3 s (GET_book id) = HTTP_500 AttributeError /\
  response_of with_extra_data_4 s (GET_book id) = HTTP_500 TypeError /\
  response_of with_extra_data_1 s GET_books = HTTP_500 ValidationError /\
  response_of with_extra_data_3 s GET_books = HTTP_500 AttributeError /\
  response_of with_extra_data_4 s GET_books = HTTP_500 TypeError /\
  (exists body, response_of with_extra_data_2 s (GET_book id) = HTTP_200 body) /\
  (exists body, response_of with_extra_data_2 s GET_books = HTTP_200 body).
Proof.
  intros Hone Hin Hnone.
  assert (Hb : In b (tbl_books s)).
  { apply one_In in Hone. apply filter_In in Hone. tauto. }
  assert (Hsingle : forall v, v <> with_extra_data_2 ->
            response_of v s (GET_book id) = HTTP_500 (failure v)).
  { intros v Hv. rewrite response_of_shaped. cbn [shaped]. rewrite Hone.
    cbn [rbind]. rewrite (shaped_Book_dangling v s b ba Hv Hin Hnone).
    reflexivity. }
  assert (Hlist : forall v, v <> with_extra_data_2 ->
            response_of v s GET_books = HTTP_500 (failure v)).
  { intros v Hv. rewrite response_of_shaped. cbn [shaped].
    rewrite (traverse_fails _ _ b Hb (shaped_Book_dangling v s b ba Hv Hin Hnone)).
    reflexivity. }
  repeat split;
    try (apply Hsingle; discriminate); try (apply Hlist; discriminate).
  - rewrite response_of_shaped. cbn [shaped]. rewrite Hone. cbn. eauto.
  - rewrite response_of_shaped. cbn [shaped].
    destruct (variant_2_always_shapes s) as [[js ->] _]. cbn. eauto.
Qed.

Lemma association_without_author_row_witness :
  one (filter (fun x => Book_id x =? 1) (tbl_books dangling)) = Return (mkBook 1 "B") /\
  In (mkBookAuthor 1 7 "x") (Book_authors_rel dangling (mkBook 1 "B")) /\
  BookAuthor_author_rel dangling (mkBookAuthor 1 7 "x") = None /\
  response_of with_extra_data_1 dangling (GET_book 1) = HTTP_500 ValidationError /\
  response_of with_extra_data_3 dangling (GET_book 1) = HTTP_500 AttributeError /\
  response_of with_extra_data_4 dangling (GET_book 1) = HTTP_500 TypeError /\
  response_of with_extra_data_1 dangling GET_books = HTTP_500 ValidationError /\
  response_of with_extra_data_3 dangling GET_books = HTTP_500 AttributeError /\
  response_of with_extra_data_4 dangling GET_books = HTTP_500 TypeError /\
  (exists body, response_of with_extra_data_2 dangling (GET_book 1) = HTTP_200 body) /\
  (exists body, response_of with_extra_data_2 dangling GET_books = HTTP_200 body).
Proof.
  split; [reflexivity |]. split; [left; reflexivity |]. split; [reflexivity |].
  apply (association_without_author_row dangling 1 (mkBook 1 "B")
           (mkBookAuthor 1 7 "x")).
  - reflexivity.
  - left. reflexivity.
  - reflexivity.
Defined.

(** X4.  The same from the author's side: when an association of an author
    has no book row, [GET /authors/{id}] of that author and [GET /authors]
    end with a 500 in variants 1, 3 and 4, with the same three exceptions,
    and variant 2 answers 200. *)
Theorem association_without_book_row s id a ba :
  one (filter (fun x => Author_id x =? id) (tbl_authors s)) = Return a ->
  In ba (Author_books_rel s a) ->
  BookAuthor_book_rel s ba = None ->
  response_of with_extra_data_1 s (GET_author id) = HTTP_500 ValidationError /\
  response_of with_extra_data_3 s (GET_author id) = HTTP_500 AttributeError /\
  response_of with_extra_data_4 s (GET_author id) = HTTP_500 TypeError /\
  response_of with_extra_data_1 s GET_authors = HTTP_500 ValidationError /\
  response_of with_extra_data_3 s GET_authors = HTTP_500 AttributeError /\
  response_of with_extra_data_4 s GET_authors = HTTP_500 TypeError /\
  (exists body, response_of with_extra_data_2 s (GET_author id) = HTTP_200 body) /\
  (exists body, response_of with_extra_data_2 s GET_authors = HTTP_200 body).
Proof.
  intros Hone Hin Hnone.
  assert (Ha : In a (tbl_authors s)).
  { apply one_In in Hone. apply filter_In in Hone. tauto. }
  assert (Hsingle : forall v, v <> with_extra_data_2 ->
            response_of v s (GET_author id) = HTTP_500 (failure v)).
  { intros v Hv. rewrite response_of_shaped. cbn [shaped]. rewrite Hone.
    cbn [rbind]. rewrite (shaped_Author_dangling v s a ba Hv Hin Hnone).
    reflexivity. }
  assert (Hlist : forall v, v <> with_extra_data_2 ->
            response_of v s GET_authors = HTTP_500 (failure v)).
  { intros v Hv. rewrite response_of_shaped. cbn [shaped].
    rewrite (traverse_fails _ _ a Ha (shaped_Author_dangling v s a ba Hv Hin Hnone)).
    reflexivity. }
  repeat split;
    try (apply Hsingle; discriminate); try (apply Hlist; discriminate).
  - rewrite response_of_shaped. cbn [shaped]. rewrite Hone. cbn. eauto.
  - rewrite response_of_shaped. cbn [shaped].
    destruct (variant_2_always_shapes s) as [_ [js ->]]. cbn. eauto.
Qed.

Lemma association_without_book_row_witness :
  one (filter (fun x => Author_id x =? 1) (tbl_authors dangling_book))
    = Return (mkAuthor 1 "A") /\
  In (mkBookAuthor 9 1 "x") (Author_books_rel dangling_book (mkAuthor 1 "A")) /\
  BookAuthor_book_rel dangling_book (mkBookAuthor 9 1 "x") = None /\
  response_of with_extra_data_1 dangling_book (GET_author 1) = HTTP_500 ValidationError /\
  response_of with_extra_data_3 dangling_book (GET_author 1) = HTTP_500 AttributeError /\
  response_of with_extra_data_4 dangling_book (GET_author 1) = HTTP_500 TypeError /\
  response_of with_extra_data_1 dangling_book GET_authors = HTTP_500 ValidationError /\
  response_of with_extra_data_3 dangling_book GET_authors = HTTP_500 AttributeError /\
  response_of with_extra_data_4 dangling_book GET_authors = HTTP_500 TypeError /\
  (exists body, response_of with_extra_data_2 dangling_book (GET_author 1) = HTTP_200 body) /\
  (exists body, response_of with_extra_data_2 dangling_book GET_authors = HTTP_200 body).
Proof.
  split; [reflexivity |]. split; [left; reflexivity |]. split; [reflexivity |].
  apply (association_without_book_row dangling_book 1 (mkAuthor 1 "A")
           (mkBookAuthor 9 1 "x")).
  - reflexivity.
  - left. reflexivity.
  - reflexivity.
Defined.

(** ** The joins of variant 2 against the relationships *)

Lemma flat_map_nil {A B} (l : list A) : flat_map (fun _ : A => @nil B) l = [].
Proof. induction l; cbn; auto. Qed.

Lemma flat_map_app_perm {A B} (f g : A -> list B) (l : list A) :
  Permutation (flat_map (fun x => (f x ++ g x)%list) l)
              (flat_map f l ++ flat_map g l)%list.
Proof.
  induction l as [| x rest IH]; cbn [flat_map]; [constructor |].
  rewrite IH. rewrite <- !app_assoc. apply Permutation_app_head.
  rewrite !app_assoc. apply Permutation_app_tail. apply Permutation_app_comm.
Qed.

Lemma filter_flat_map {A B} (p : B -> bool) (f : A -> list B) (l : list A) :
  filter p (flat_map f l) = flat_map (fun x => filter p (f x)) l.
Proof.
  induction l as [| x rest IH]; cbn [flat_map]; [reflexivity |].
  rewrite filter_app, IH. reflexivity.
Qed.

Lemma filter_map_comm {A B} (p : B -> bool) (f : A -> B) (l : list A) :
  filter p (map f l) = map f (filter (fun x => p (f x)) l).
Proof.
  induction l as [| x rest IH]; cbn; [reflexivity |].
  destruct (p (f x)); cbn; rewrite IH; reflexivity.
Qed.

Lemma filter_filter {A} (p q : A -> bool) (l : list A) :
  filter p (filter q l) = filter (fun x => p x && q x) l.
Proof.
  induction l as [| x rest IH]; cbn; [reflexivity |].
  destruct (q x); cbn; rewrite ?andb_true_r, ?andb_false_r;
    [destruct (p x) |]; rewrite IH; reflexivity.
Qed.

(** With unique keys, the rows that match a key are the row [find] returns. *)
Lemma matching_rows_find {A B} (key : A -> Z) (rows : list A) (k : Z)
      (f : A -> B) :
  NoDup (map key rows) ->
  flat_map (fun a => if key a =? k then [f a] else []) rows =
    match find (fun a => key a =? k) rows with
    | Some a => [f a]
    | None => []
    end.
Proof.
  induction rows as [| a rest IH]; intros Hnd; cbn [flat_map find];
    [reflexivity |].
  cbn [map] in Hnd. inversion Hnd as [| x xs Hnotin Hrest]; subst.
  destruct (key a =? k) eqn:Hk.
  - apply Z.eqb_eq in Hk. subst k.
    change ([f a] ++ ?x)%list with (f a :: x). f_equal.
    assert (H : forall l : list A,
               (forall x, In x l -> key x <> key a) ->
               flat_map (fun a0 => if key a0 =? key a then [f a0] else []) l = []).
    { induction l as [| y l' IHl]; intros Hl; [reflexivity |]. cbn [flat_map].
      destruct (key y =? key a) eqn:Hy.
      - apply Z.eqb_eq in Hy. exfalso. apply (Hl y); [left; reflexivity | exact Hy].
      - apply IHl. intros x Hx. apply Hl. right. exact Hx. }
    apply H. intros x Hx Heq. apply Hnotin. rewrite <- Heq. apply in_map. exact Hx.
  - change ([] ++ ?x)%list with x. apply IH. exact Hrest.
Qed.

(** A nested-loop join on a unique key lists, up to order, each row of the
    inner table with the row of the outer table it references. *)
Lemma join_on_unique_key {A} (key : A -> Z) (fk : BookAuthor -> Z)
      (rows : list A) (l : list BookAuthor) :
  NoDup (map key rows) ->
  Permutation
    (flat_map (fun a => map (fun ba => (ba, a))
                            (filter (fun ba => key a =? fk ba) l)) rows)
    (flat_map (fun ba => match find (fun a => key a =? fk ba) rows with
                         | Some a => [(ba, a)]
                         | None => []
                         end) l).
Proof.
  intros Hnd. induction l as [| ba rest IH].
  - cbn [filter map flat_map]. rewrite flat_map_nil. constructor.
  - cbn [flat_map].
    rewrite <- (matching_rows_find key rows (fk ba) (fun a => (ba, a)) Hnd).
    rewrite <- IH. rewrite <- flat_map_app_perm.
    apply Permutation_refl'. apply flat_map_ext. intros a.
    cbn [filter]. destruct (key a =? fk ba); reflexivity.
Qed.

Lemma filter_as_flat_map {A} (p : A -> bool) (l : list A) :
  flat_map (fun x => if p x then [x] else []) l = filter p l.
Proof.
  induction l as [| x rest IH]; cbn; [reflexivity |].
  rewrite IH. destruct (p x); reflexivity.
Qed.

Lemma map_flat_map {A B C} (h : B -> C) (f : A -> list B) (l : list A) :
  map h (flat_map f l) = flat_map (fun x => map h (f x)) l.
Proof.
  induction l as [| x rest IH]; cbn [flat_map map]; [reflexivity |].
  rewrite map_app, IH. reflexivity.
Qed.

Lemma Book_authors_join_pairs s b :
  NoDup (map Book_id (tbl_books s)) -> In b (tbl_books s) ->
  map (fun temp => (snd temp, fst temp))
      (WithExtraData2.Book_authors_join s (Book_id b)) =
  flat_map (fun a => map (fun ba => (ba, a))
                         (filter (fun ba => Author_id a =? author_id ba)
                                 (Book_authors_rel s b)))
           (tbl_authors s).
Proof.
  intros Hnd Hin. unfold WithExtraData2.Book_authors_join.
  rewrite (flat_map_ext _
             (fun temp => if book_id (snd temp) =? Book_id b then [temp] else [])).
  2:{ intros temp.
      rewrite <- (filter_filter (fun x => book_id (snd temp) =? Book_id x)
                                (fun x => Book_id x =? Book_id b)).
      rewrite (filter_key_unique Book_id _ b Hnd Hin). cbn [filter].
      destruct (book_id (snd temp) =? Book_id b); reflexivity. }
  rewrite filter_as_flat_map. unfold WithExtraData2.temp_authors.
  rewrite filter_flat_map, map_flat_map. apply flat_map_ext. intros a.
  rewrite filter_map_comm, map_map. cbn [snd fst].
  unfold Book_authors_rel. rewrite !filter_filter. f_equal.
  apply filter_ext. intros ba. apply andb_comm.
Qed.

Lemma Author_books_join_pairs s a :
  NoDup (map Author_id (tbl_authors s)) -> In a (tbl_authors s) ->
  map (fun temp => (snd temp, fst temp))
      (WithExtraData2.Author_books_join s (Author_id a)) =
  flat_map (fun b => map (fun ba => (ba, b))
                         (filter (fun ba => Book_id b =? book_id ba)
                                 (Author_books_rel s a)))
           (tbl_books s).
Proof.
  intros Hnd Hin. unfold WithExtraData2.Author_books_join.
  rewrite (flat_map_ext _
             (fun temp => if author_id (snd temp) =? Author_id a then [temp] else [])).
  2:{ intros temp.
      rewrite <- (filter_filter (fun x => author_id (snd temp) =? Author_id x)
                                (fun x => Author_id x =? Author_id a)).
      rewrite (filter_key_unique Author_id _ a Hnd Hin). cbn [filter].
      destruct (author_id (snd temp) =? Author_id a); reflexivity. }
  rewrite filter_as_flat_map. unfold WithExtraData2.temp_books.
  rewrite filter_flat_map, map_flat_map. apply flat_map_ext. intros b.
  rewrite filter_map_comm, map_map. cbn [snd fst].
  unfold Author_books_rel. rewrite !filter_filter. f_equal.
  apply filter_ext. intros ba. apply andb_comm.
Qed.

Lemma traverse_resolved_authors s l ps :
  traverse (resolve_author s) l = Some ps -> resolved_authors s l = ps.
Proof.
  revert ps. induction l as [| ba rest IH]; intros ps H; cbn in H.
  - injection H as <-. reflexivity.
  - unfold resolve_author in H at 1. cbn [resolved_authors flat_map].
    destruct (BookAuthor_author_rel s ba) as [a |]; cbn in H; [| discriminate].
    destruct (traverse (resolve_author s) rest) as [ps' |]; [| discriminate].
    injection H as <-. cbn. f_equal. apply IH. reflexivity.
Qed.

Lemma traverse_resolved_books s l ps :
  traverse (resolve_book s) l = Some ps -> resolved_books s l = ps.
Proof.
  revert ps. induction l as [| ba rest IH]; intros ps H; cbn in H.
  - injection H as <-. reflexivity.
  - unfold resolve_book in H at 1. cbn [resolved_books flat_map].
    destruct (BookAuthor_book_rel s ba) as [b |]; cbn in H; [| discriminate].
    destruct (traverse (resolve_book s) rest) as [ps' |]; [| discriminate].
    injection H as <-. cbn. f_equal. apply IH. reflexivity.
Qed.

(** X5.  With unique primary keys, [GET /books/{id}] of variant 2 always
    answers 200 for a book of the table; its [authors] list holds, up to
    order, one [{id, name}] entry for each association of the book whose
    author row exists and none for the others.  So whenever variant 3
    answers the request, variant 2 lists the same entries without their
    blurb, possibly in another order. *)
Theorem variant_2_lists_the_resolved_authors s b :
  unique_keys s -> In b (tbl_books s) ->
  exists es,
    response_of with_extra_data_2 s (GET_book (Book_id b)) =
      HTTP_200 (JDict [("id", JInt (Book_id b)); ("title", JStr (Book_title b));
                       ("authors", JList es)]) /\
    Permutation es (map (author_entry with_extra_data_2)
                        (resolved_authors s (Book_authors_rel s b))) /\
    (forall body,
       response_of with_extra_data_3 s (GET_book (Book_id b)) = HTTP_200 body ->
       Permutation es (map without_blurb (list_entries body))).
Proof.
  intros [Hbooks Hauthors] Hin.
  assert (Hperm :
    Permutation (map (fun temp => (snd temp, fst temp))
                     (WithExtraData2.Book_authors_join s (Book_id b)))
                (resolved_authors s (Book_authors_rel s b))).
  { rewrite (Book_authors_join_pairs s b Hbooks Hin).
    apply (join_on_unique_key Author_id author_id). exact Hauthors. }
  eexists. split; [| split].
  - rewrite response_of_shaped, (shaped_GET_book _ s b Hbooks Hin). reflexivity.
  - apply Permutation_map. exact Hperm.
  - intros body H. rewrite response_of_shaped, (shaped_GET_book _ s b Hbooks Hin) in H.
    apply respond_of_option_200, shaped_Book_Some in H.
    destruct H as (ps & Hps & ->). cbn [Book_pairs] in Hps.
    apply traverse_resolved_authors in Hps.
    unfold list_entries. cbn [top_level_objects flat_map].
    rewrite related_list_Book, app_nil_r.
    rewrite (map_map (author_entry with_extra_data_3) without_blurb).
    change (fun x => without_blurb (author_entry with_extra_data_3 x))
      with (author_entry with_extra_data_2).
    apply Permutation_map. rewrite <- Hps. exact Hperm.
Qed.

Lemma variant_2_lists_the_resolved_authors_witness :
  unique_keys seeded /\ In (mkBook 2 "How To Make Friends In Your 30s") (tbl_books seeded) /\
  exists es,
    response_of with_extra_data_2 seeded (GET_book 2) =
      HTTP_200 (JDict [("id", JInt 2);
                       ("title", JStr "How To Make Friends In Your 30s");
                       ("authors", JList es)]) /\
    Permutation es (map (author_entry with_extra_data_2)
                        (resolved_authors seeded
                           (Book_authors_rel seeded
                              (mkBook 2 "How To Make Friends In Your 30s")))) /\
    (forall body,
       response_of with_extra_data_3 seeded (GET_book 2) = HTTP_200 body ->
       Permutation es (map without_blurb (list_entries body))).
Proof.
  split; [exact seeded_unique_keys |].
  split; [right; left; reflexivity |].
  apply (variant_2_lists_the_resolved_authors seeded
           (mkBook 2 "How To Make Friends In Your 30s")).
  - exact seeded_unique_keys.
  - right. left. reflexivity.
Defined.

(** X6.  The same for [GET /authors/{id}] of variant 2 and the associations
    of the author whose book row exists. *)
Theorem variant_2_lists_the_resolved_books s a :
  unique_keys s -> In a (tbl_authors s) ->
  exists es,
    response_of with_extra_data_2 s (GET_author (Author_id a)) =
      HTTP_200 (JDict [("id", JInt (Author_id a)); ("name", JStr (Author_name a));
                       ("books", JList es)]) /\
    Permutation es (map (book_entry with_extra_data_2)
                        (resolved_books s (Author_books_rel s a))) /\
    (forall body,
       response_of with_extra_data_3 s (GET_author (Author_id a)) = HTTP_200 body ->
       Permutation es (map without_blurb (list_entries body))).
Proof.
  intros [Hbooks Hauthors] Hin.
  assert (Hperm :
    Permutation (map (fun temp => (snd temp, fst temp))
                     (WithExtraData2.Author_books_join s (Author_id a)))
                (resolved_books s (Author_books_rel s a))).
  { rewrite (Author_books_join_pairs s a Hauthors Hin).
    apply (join_on_unique_key Book_id book_id). exact Hbooks. }
  eexists. split; [| split].
  - rewrite response_of_shaped, (shaped_GET_author _ s a Hauthors Hin). reflexivity.
  - apply Permutation_map. exact Hperm.
  - intros body H.
    rewrite response_of_shaped, (shaped_GET_author _ s a Hauthors Hin) in H.
    apply respond_of_option_200, shaped_Author_Some in H.
    destruct H as (ps & Hps & ->). cbn [Author_pairs] in Hps.
    apply traverse_resolved_books in Hps.
    unfold list_entries. cbn [top_level_objects flat_map].
    rewrite related_list_Author, app_nil_r.
    rewrite (map_map (book_entry with_extra_data_3) without_blurb).
    change (fun x => without_blurb (book_entry with_extra_data_3 x))
      with (book_entry with_extra_data_2).
    apply Permutation_map. rewrite <- Hps. exact Hperm.
Qed.

Lemma variant_2_lists_the_resolved_books_witness :
  unique_keys seeded /\ In (mkAuthor 1 "Blu Renolds") (tbl_authors seeded) /\
  exists es,
    response_of with_extra_data_2 seeded (GET_author 1) =
      HTTP_200 (JDict [("id", JInt 1); ("name", JStr "Blu Renolds");
                       ("books", JList es)]) /\
    Permutation es (map (book_entry with_extra_data_2)
                        (resolved_books seeded
                           (Author_books_rel seeded (mkAuthor 1 "Blu Renolds")))) /\
    (forall body,
       response_of with_extra_data_3 seeded (GET_author 1) = HTTP_200 body ->
       Permutation es (map without_blurb (list_entries body))).
Proof.
  split; [exact seeded_unique_keys |].
  split; [left; reflexivity |].
  apply (variant_2_lists_the_resolved_books seeded (mkAuthor 1 "Blu Renolds")).
  - exact seeded_unique_keys.
  - left. reflexivity.
Defined.

(** ** The two sides of an association *)

Lemma Forall2_In_right {A B} (R : A -> B -> Prop) l l' y :
  Forall2 R l l' -> In y l' -> exists x, In x l /\ R x y.
Proof.
  induction 1 as [| x0 y0 l l' Hxy _ IH]; intros Hin; [contradiction |].
  destruct Hin as [<- | Hin].
  - exists x0. split; [left; reflexivity | exact Hxy].
  - destruct (IH Hin) as (x & Hx & HR). exists x. split; [right |]; assumption.
Qed.

Lemma Forall2_In_left {A B} (R : A -> B -> Prop) l l' x :
  Forall2 R l l' -> In x l -> exists y, In y l' /\ R x y.
Proof.
  induction 1 as [| x0 y0 l l' Hxy _ IH]; intros Hin; [contradiction |].
  destruct Hin as [<- | Hin].
  - exists y0. split; [left; reflexivity | exact Hxy].
  - destruct (IH Hin) as (y & Hy & HR). exists y. split; [right |]; assumption.
Qed.

Lemma one_filter_key {A} (key : A -> Z) (l : list A) id x :
  one (filter (fun y => key y =? id) l) = Return x -> In x l /\ key x = id.
Proof.
  intros H. apply one_In in H. apply filter_In in H. destruct H as [Hin Hk].
  split; [exact Hin | apply Z.eqb_eq; exact Hk].
Qed.

Lemma book_response_entries v s id body :
  v <> with_extra_data_2 ->
  response_of v s (GET_book id) = HTTP_200 body ->
  exists b, In b (tbl_books s) /\ Book_id b = id /\
    get "id" body = Some (JInt id) /\
    get "title" body = Some (JStr (Book_title b)) /\
    Forall2 (fun ba e =>
               get "id" e = Some (JInt (author_id ba)) /\
               get "blurb" e = Some (JStr (blurb ba)) /\
               exists a, BookAuthor_author_rel s ba = Some a /\
                         get "name" e = Some (JStr (Author_name a)))
            (Book_authors_rel s b) (list_entries body).
Proof.
  intros Hv H. apply response_200_shaped in H. cbn [shaped] in H.
  destruct (one _) as [b | e] eqn:Hone; cbn [rbind] in H; [| discriminate].
  apply of_option_Return in H.
  apply one_filter_key in Hone. destruct Hone as [Hin Hid].
  exists b. split; [exact Hin |]. split; [exact Hid |].
  pose proof (book_entries_follow_associations v s b body Hv H) as HF.
  apply shaped_Book_Some in H. destruct H as (ps & _ & ->).
  unfold list_entries. cbn [top_level_objects flat_map].
  rewrite app_nil_r. subst id. repeat split. exact HF.
Qed.

Lemma author_response_entries v s id body :
  v <> with_extra_data_2 ->
  response_of v s (GET_author id) = HTTP_200 body ->
  exists a, In a (tbl_authors s) /\ Author_id a = id /\
    get "id" body = Some (JInt id) /\
    get "name" body = Some (JStr (Author_name a)) /\
    Forall2 (fun ba e =>
               get "id" e = Some (JInt (book_id ba)) /\
               get "blurb" e = Some (JStr (blurb ba)) /\
               exists b, BookAuthor_book_rel s ba = Some b /\
                         get "title" e = Some (JStr (Book_title b)))
            (Author_books_rel s a) (list_entries body).
Proof.
  intros Hv H. apply response_200_shaped in H. cbn [shaped] in H.
  destruct (one _) as [a | e] eqn:Hone; cbn [rbind] in H; [| discriminate].
  apply of_option_Return in H.
  apply one_filter_key in Hone. destruct Hone as [Hin Hid].
  exists a. split; [exact Hin |]. split; [exact Hid |].
  pose proof (author_entries_follow_associations v s a body Hv H) as HF.
  apply shaped_Author_Some in H. destruct H as (ps & _ & ->).
  unfold list_entries. cbn [top_level_objects flat_map].
  rewrite app_nil_r. subst id. repeat split. exact HF.
Qed.



(** X8.  The same for [GET /authors/{id}] in variants 1, 3 and 4: one
    [books] entry per association row of the author, in order, with the
    [book_id] of the row as [id], the title of the book row it references and
    the blurb of that row. *)
Theorem books_list_follows_the_association_rows v s id body :
  v <> with_extra_data_2 ->
  response_of v s (GET_author id) = HTTP_200 body ->
  exists a, In a (tbl_authors s) /\ Author_id a = id /\
    get "id" body = Some (JInt id) /\
    get "name" body = Some (JStr (Author_name a)) /\
    List.length (list_entries body) = List.length (Author_books_rel s a) /\
    Forall2 (fun ba e =>
               get "id" e = Some (JInt (book_id ba)) /\
               get "blurb" e = Some (JStr (blurb ba)) /\
               exists b, BookAuthor_book_rel s ba = Some b /\
                         get "title" e = Some (JStr (Book_title b)))
            (Author_books_rel s a) (list_entries body).
Proof.
  intros Hv H.
  destruct (author_response_entries v s id body Hv H)
    as (a & Hin & Hid & Haid & Hname & HF).
  exists a. repeat split; try assumption.
  symmetry. apply (Forall2_length HF).
Qed.

Lemma books_list_follows_the_association_rows_witness :
  with_extra_data_4 <> with_extra_data_2 /\
  exists body,
    response_of with_extra_data_4 seeded (GET_author 1) = HTTP_200 body /\
    exists a, In a (tbl_authors seeded) /\ Author_id a = 1 /\
      get "id" body = Some (JInt 1) /\
      get "name" body = Some (JStr (Author_name a)) /\
      List.length (list_entries body) = List.length (Author_books_rel seeded a) /\
      Forall2 (fun ba e =>
                 get "id" e = Some (JInt (book_id ba)) /\
                 get "blurb" e = Some (JStr (blurb ba)) /\
                 exists b, BookAuthor_book_rel seeded ba = Some b /\
                           get "title" e = Some (JStr (Book_title b)))
              (Author_books_rel seeded a) (list_entries body).
Proof.
  split; [discriminate |]. eexists. split; [reflexivity |].
  apply (books_list_follows_the_association_rows with_extra_data_4 seeded 1).
  - discriminate.
  - reflexivity.
Defined.

(** X9.  In variants 1, 3 and 4 the two routes show an association alike:
    whenever both requests answer 200, the [authors] list of book [bid] has
    an entry with id [aid] and blurb [x] exactly when the [books] list of
    author [aid] has an entry with id [bid] and the same blurb [x]. *)
Theorem book_and_author_views_agree v s bid aid bbody abody x :
  v <> with_extra_data_2 ->
  response_of v s (GET_book bid) = HTTP_200 bbody ->
  response_of v s (GET_author aid) = HTTP_200 abody ->
  ((exists e, In e (list_entries bbody) /\
              get "id" e = Some (JInt aid) /\ get "blurb" e = Some (JStr x)) <->
   (exists e, In e (list_entries abody) /\
              get "id" e = Some (JInt bid) /\ get "blurb" e = Some (JStr x))).
Proof.
  intros Hv Hb Ha.
  destruct (book_response_entries v s bid bbody Hv Hb)
    as (b & _ & Hbid & _ & _ & HFb).
  destruct (author_response_entries v s aid abody Hv Ha)
    as (a & _ & Haid & _ & _ & HFa).
  assert (Hrow_b :
    (exists e, In e (list_entries bbody) /\
               get "id" e = Some (JInt aid) /\ get "blurb" e = Some (JStr x)) <->
    (exists ba, In ba (tbl_book_authors s) /\
                book_id ba = bid /\ author_id ba = aid /\ blurb ba = x)).
  { split.
    - intros (e & He & Hid & Hx).
      destruct (Forall2_In_right _ _ _ e HFb He) as (ba & Hba & Hid' & Hx' & _).
      apply filter_In in Hba. destruct Hba as [Hba Hk]. apply Z.eqb_eq in Hk.
      exists ba. rewrite Hid in Hid'. rewrite Hx in Hx'.
      injection Hid' as Hid'. injection Hx' as Hx'.
      repeat split; congruence.
    - intros (ba & Hba & Hk & Hid & Hx).
      assert (Hrel : In ba (Book_authors_rel s b)).
      { apply filter_In. split; [exact Hba |]. apply Z.eqb_eq. congruence. }
      destruct (Forall2_In_left _ _ _ ba HFb Hrel) as (e & He & Hid' & Hx' & _).
      exists e. repeat split; [exact He | congruence | congruence]. }
  assert (Hrow_a :
    (exists e, In e (list_entries abody) /\
               get "id" e = Some (JInt bid) /\ get "blurb" e = Some (JStr x)) <->
    (exists ba, In ba (tbl_book_authors s) /\
                book_id ba = bid /\ author_id ba = aid /\ blurb ba = x)).
  { split.
    - intros (e & He & Hid & Hx).
      destruct (Forall2_In_right _ _ _ e HFa He) as (ba & Hba & Hid' & Hx' & _).
      apply filter_In in Hba. destruct Hba as [Hba Hk]. apply Z.eqb_eq in Hk.
      exists ba. rewrite Hid in Hid'. rewrite Hx in Hx'.
      injection Hid' as Hid'. injection Hx' as Hx'.
      repeat split; congruence.
    - intros (ba & Hba & Hk & Hid & Hx).
      assert (Hrel : In ba (Author_books_rel s a)).
      { apply filter_In. split; [exact Hba |]. apply Z.eqb_eq. congruence. }
      destruct (Forall2_In_left _ _ _ ba HFa Hrel) as (e & He & Hid' & Hx' & _).
      exists e. repeat split; [exact He | congruence | congruence]. }
  rewrite Hrow_b, Hrow_a. reflexivity.
Qed.

Lemma book_and_author_views_agree_witness :
  with_extra_data_3 <> with_extra_data_2 /\
  exists bbody abody,
    response_of with_extra_data_3 seeded (GET_book 2) = HTTP_200 bbody /\
    response_of with_extra_data_3 seeded (GET_author 1) = HTTP_200 abody /\
    ((exists e, In e (list_entries bbody) /\
                get "id" e = Some (JInt 1) /\
                get "blurb" e = Some (JStr "Blue wrote chapters 1-3")) <->
     (exists e, In e (list_entries abody) /\
                get "id" e = Some (JInt 2) /\
                get "blurb" e = Some (JStr "Blue wrote chapters 1-3"))).
Proof.
  split; [discriminate |]. eexists. eexists.
  split; [reflexivity |]. split; [reflexivity |].
  apply (book_and_author_views_agree with_extra_data_3 seeded 2 1).
  - discriminate.
  - reflexivity.
  - reflexivity.
Defined.

(** ** The [dict] overrides of variant 4 *)

Lemma keys_dict_set key v kv x :
  assoc key kv = Some x -> keys (dict_set key v kv) = keys kv.
Proof.
  induction kv as [| [k y] rest IH]; cbn [assoc dict_set]; intros H;
    [discriminate |].
  destruct (String.eqb k key); [reflexivity |].
  cbn [keys map fst]. f_equal. apply IH. exact H.
Qed.

Lemma assoc_dict_set_other key v kv k :
  k <> key -> assoc k (dict_set key v kv) = assoc k kv.
Proof.
  intros Hne. induction kv as [| [k' y] rest IH]; cbn [assoc dict_set].
  - destruct (String.eqb key k) eqn:E; [| reflexivity].
    apply String.eqb_eq in E. congruence.
  - destruct (String.eqb k' key) eqn:E; cbn [assoc].
    + apply String.eqb_eq in E. subst k'.
      destruct (String.eqb key k) eqn:E'; [| reflexivity].
      apply String.eqb_eq in E'. congruence.
    + rewrite IH. reflexivity.
Qed.

Lemma assoc_dict_set_same key v kv x :
  assoc key kv = Some x -> assoc key (dict_set key v kv) = Some v.
Proof.
  induction kv as [| [k y] rest IH]; cbn [assoc dict_set]; intros H;
    [discriminate |].
  destruct (String.eqb k key) eqn:E; cbn [assoc]; rewrite E; [reflexivity |].
  apply IH. exact H.
Qed.

Lemma for_each_length body l l' :
  for_each body l = Return l' -> List.length l' = List.length l.
Proof.
  revert l'. induction l as [| x rest IH]; cbn [for_each]; intros l' H.
  - injection H as <-. reflexivity.
  - destruct (body x) as [x' |]; cbn [rbind] in H; [| discriminate].
    destruct (for_each body rest) as [rest' |]; cbn [rbind] in H; [| discriminate].
    injection H as <-. cbn. f_equal. apply IH. reflexivity.
Qed.

Lemma for_in_list body l xs' :
  for_in (JList l) body = Return xs' ->
  exists l', xs' = JList l' /\ List.length l' = List.length l.
Proof.
  cbn [for_in]. destruct (for_each body l) as [l' |] eqn:H; cbn [rbind];
    intros Heq; [| discriminate].
  injection Heq as <-. exists l'. split; [reflexivity |].
  apply (for_each_length _ _ _ H).
Qed.

(** What a [dict] override of the form
    [for x in data[key]: ...; return data] leaves alone. *)
Lemma merged_in_place key (body : json -> result json) data data' :
  (xs <- getitem data key ;;
   xs' <- for_in xs body ;;
   setitem data key xs')%result = Return data' ->
  exists kv kv' xs xs',
    data = JDict kv /\ data' = JDict kv' /\
    keys kv' = keys kv /\
    (forall k, k <> key -> assoc k kv' = assoc k kv) /\
    assoc key kv = Some xs /\ for_in xs body = Return xs' /\
    assoc key kv' = Some xs'.
Proof.
  destruct data as [| | | | kv]; cbn [getitem rbind]; try discriminate.
  destruct (assoc key kv) as [xs |] eqn:Hxs; cbn [rbind]; [| discriminate].
  destruct (for_in xs body) as [xs' |] eqn:Hfor; cbn [rbind setitem];
    [| discriminate].
  intros H. injection H as <-.
  exists kv, (dict_set key xs' kv), xs, xs'. repeat split.
  - apply (keys_dict_set _ _ _ _ Hxs).
  - intros k Hk. apply assoc_dict_set_other. exact Hk.
  - exact Hxs.
  - exact Hfor.
  - apply (assoc_dict_set_same _ _ _ _ Hxs).
Qed.

(** X10.  [BookSchema.dict] of variant 4 changes nothing of the dictionary
    but the list under [authors]: when it returns, the keys are the same in
    the same order, the value of every other key is unchanged, and a list
    under [authors] is still a list of the same length.  The same for
    [AuthorSchema.dict] and [books]. *)
Theorem dict_override_changes_only_its_list :
  (forall data data',
     WithExtraData4.BookSchema_dict data = Return data' ->
     exists kv kv',
       data = JDict kv /\ data' = JDict kv' /\ keys kv' = keys kv /\
       (forall k, k <> "authors" -> assoc k kv' = assoc k kv) /\
       (forall l, assoc "authors" kv = Some (JList l) ->
          exists l', assoc "authors" kv' = Some (JList l') /\
                     List.length l' = List.length l)) /\
  (forall data data',
     WithExtraData4.AuthorSchema_dict data = Return data' ->
     exists kv kv',
       data = JDict kv /\ data' = JDict kv' /\ keys kv' = keys kv /\
       (forall k, k <> "books" -> assoc k kv' = assoc k kv) /\
       (forall l, assoc "books" kv = Some (JList l) ->
          exists l', assoc "books" kv' = Some (JList l') /\
                     List.length l' = List.length l)).
Proof.
  split; intros data data' H;
    apply merged_in_place in H;
    destruct H as (kv & kv' & xs & xs' & -> & -> & Hkeys & Hframe & Hxs & Hfor & Hxs');
    exists kv, kv'; repeat split; try assumption;
    intros l Hl; rewrite Hl in Hxs; injection Hxs as <-;
    destruct (for_in_list _ _ _ Hfor) as (l' & -> & Hlen);
    exists l'; split; assumption.
Qed.

Lemma dict_override_changes_only_its_list_witness :
  exists data',
    WithExtraData4.BookSchema_dict
      (JDict [("id", JInt 5); ("title", JStr "T");
              ("authors",
               JList [JDict [("blurb", JStr "x");
                             ("author", JDict [("id", JInt 8); ("name", JStr "N")])]])])
    = Return data' /\
    data' = JDict [("id", JInt 5); ("title", JStr "T");
                   ("authors",
                    JList [JDict [("blurb", JStr "x"); ("id", JInt 8);
                                  ("name", JStr "N")]])] /\
    exists kv kv',
      JDict [("id", JInt 5); ("title", JStr "T");
             ("authors",
              JList [JDict [("blurb", JStr "x");
                            ("author", JDict [("id", JInt 8); ("name", JStr "N")])]])]
        = JDict kv /\ data' = JDict kv' /\ keys kv' = keys kv /\
      (forall k, k <> "authors" -> assoc k kv' = assoc k kv) /\
      (forall l, assoc "authors" kv = Some (JList l) ->
         exists l', assoc "authors" kv' = Some (JList l') /\
                    List.length l' = List.length l).
Proof.
  eexists. split; [reflexivity |]. split; [reflexivity |].
  apply (proj1 dict_override_changes_only_its_list). reflexivity.
Defined.

(** X11.  The [dict] overrides of variant 4 subscript [data['authors']] and
    [data['books']] whatever keyword arguments they were called with:
    serializing a book with [exclude={'authors'}] (or an author with
    [exclude={'books'}]) raises [KeyError], for every book and author of
    every database and with or without [by_alias]. *)
Theorem dict_override_with_its_list_excluded s by_alias :
  (forall b,
     serialize_response (WithExtraData4.getattr s)
       (t_Model WithExtraData4.BookSchema) ["authors"] by_alias (PObj (OBook b))
     = Raise KeyError) /\
  (forall a,
     serialize_response (WithExtraData4.getattr s)
       (t_Model WithExtraData4.AuthorSchema) ["books"] by_alias (PObj (OAuthor a))
     = Raise KeyError).
Proof.
  split.
  - intros b. unfold serialize_response.
    pose proof (Book_valid with_extra_data_4 s b) as H.
    cbn [route_getattr BookSchema_of] in H. rewrite H.
    cbn [Book_inst failure of_option rbind].
    rewrite jsonable_encoder_VModel, !dict_entries_cons, dict_entries_nil.
    destruct by_alias; reflexivity.
  - intros a. unfold serialize_response.
    pose proof (Author_valid with_extra_data_4 s a) as H.
    cbn [route_getattr AuthorSchema_of] in H. rewrite H.
    cbn [Author_inst failure of_option rbind].
    rewrite jsonable_encoder_VModel, !dict_entries_cons, dict_entries_nil.
    destruct by_alias; reflexivity.
Qed.

(** ** Sessions over a sequence of requests *)

Lemma remove_fresh (db : Session) (l : list Session) :
  (forall x, In x l -> (x < db)%nat) -> remove Nat.eq_dec db l = l.
Proof.
  intros H. apply notin_remove. intros Hin. apply H in Hin. lia.
Qed.

(** X12.  No session is leaked over any sequence of requests: when the
    handles of the open sessions are all older than the next handle, the same
    sessions and no others are open after the sequence, whatever the requests
    returned or raised, and one handle has been used per request. *)
Theorem no_session_leak v rs w :
  (forall db, In db (open_sessions w) -> (db < next_session w)%nat) ->
  open_sessions (snd (serve v rs w)) = open_sessions w /\
  next_session (snd (serve v rs w)) = (next_session w + List.length rs)%nat.
Proof.
  revert w. induction rs as [| r rest IH]; intros w Hfresh.
  - cbn. split; [reflexivity | lia].
  - cbn [serve]. rewrite handle_run.
    assert (Hopen : open_sessions (after_request w) = open_sessions w).
    { unfold after_request. cbn [open_sessions]. apply remove_fresh. exact Hfresh. }
    assert (Hnext : next_session (after_request w) = S (next_session w))
      by reflexivity.
    destruct (IH (after_request w)) as [IHopen IHnext].
    { intros db Hdb. rewrite Hopen in Hdb. rewrite Hnext.
      apply Hfresh in Hdb. lia. }
    destruct (serve v rest (after_request w)) as [resps w'].
    cbn [snd] in *. rewrite IHopen, IHnext, Hopen, Hnext. cbn [List.length].
    split; [reflexivity | lia].
Qed.

Lemma no_session_leak_witness :
  (forall db, In db (open_sessions startup) -> (db < next_session startup)%nat) /\
  open_sessions
    (snd (serve with_extra_data_1 [GET_book 1; GET_book 999; GET_authors] startup))
    = open_sessions startup /\
  next_session
    (snd (serve with_extra_data_1 [GET_book 1; GET_book 999; GET_authors] startup))
    = (next_session startup + 3)%nat.
Proof.
  split; [intros db H; contradiction |].
  apply (no_session_leak with_extra_data_1
           [GET_book 1; GET_book 999; GET_authors] startup).
  intros db H. contradiction.
Defined.

(** ** The seed block on any tables *)

Open Scope list_scope.








(** ** Rows without associations *)

Lemma flat_map_nil_In {A B} (f : A -> list B) (l : list A) :
  (forall x, In x l -> f x = []) -> flat_map f l = [].
Proof.
  induction l as [| x rest IH]; intros H; cbn [flat_map]; [reflexivity |].
  rewrite (H x (or_introl eq_refl)), IH; [reflexivity |].
  intros y Hy. apply H. right. exact Hy.
Qed.

Lemma filter_nil {A} (p : A -> bool) (l : list A) :
  (forall x, In x l -> p x = false) -> filter p l = [].
Proof.
  induction l as [| x rest IH]; intros H; cbn [filter]; [reflexivity |].
  rewrite (H x (or_introl eq_refl)). apply IH.
  intros y Hy. apply H. right. exact Hy.
Qed.

Lemma filter_nil_inv {A} (p : A -> bool) (l : list A) x :
  filter p l = [] -> In x l -> p x = false.
Proof.
  intros Hnil Hin. destruct (p x) eqn:E; [| reflexivity].
  assert (H : In x (filter p l)) by (apply filter_In; split; assumption).
  rewrite Hnil in H. contradiction.
Qed.

Lemma Book_authors_join_empty s b :
  Book_authors_rel s b = [] -> WithExtraData2.Book_authors_join s (Book_id b) = [].
Proof.
  intros Hrel. unfold WithExtraData2.Book_authors_join.
  apply flat_map_nil_In. intros [a ba] Hin.
  unfold WithExtraData2.temp_authors in Hin.
  apply in_flat_map in Hin. destruct Hin as (a' & _ & Hin).
  apply in_map_iff in Hin. destruct Hin as (ba' & E & Hba).
  injection E as -> ->. apply filter_In in Hba. destruct Hba as [Hba _].
  pose proof (filter_nil_inv _ _ ba Hrel Hba) as Hk. cbn beta in Hk.
  rewrite filter_nil; [reflexivity |].
  intros x _. cbn [snd].
  destruct (book_id ba =? Book_id x) eqn:E1; [| reflexivity].
  destruct (Book_id x =? Book_id b) eqn:E2; [| reflexivity].
  apply Z.eqb_eq in E1, E2. apply Z.eqb_neq in Hk. congruence.
Qed.

Lemma Author_books_join_empty s a :
  Author_books_rel s a = [] -> WithExtraData2.Author_books_join s (Author_id a) = [].
Proof.
  intros Hrel. unfold WithExtraData2.Author_books_join.
  apply flat_map_nil_In. intros [b ba] Hin.
  unfold WithExtraData2.temp_books in Hin.
  apply in_flat_map in Hin. destruct Hin as (b' & _ & Hin).
  apply in_map_iff in Hin. destruct Hin as (ba' & E & Hba).
  injection E as -> ->. apply filter_In in Hba. destruct Hba as [Hba _].
  pose proof (filter_nil_inv _ _ ba Hrel Hba) as Hk. cbn beta in Hk.
  rewrite filter_nil; [reflexivity |].
  intros x _. cbn [snd].
  destruct (author_id ba =? Author_id x) eqn:E1; [| reflexivity].
  destruct (Author_id x =? Author_id a) eqn:E2; [| reflexivity].
  apply Z.eqb_eq in E1, E2. apply Z.eqb_neq in Hk. congruence.
Qed.

(** X14.  A book that no association row references gets the body
    [{id, title, authors: []}] in each of the four variants, and an author
    that no association row references gets [{id, name, books: []}], also on
    a database whose other associations reference missing rows. *)
Theorem row_without_associations v s :
  (forall id b,
     one (filter (fun x => Book_id x =? id) (tbl_books s)) = Return b ->
     Book_authors_rel s b = [] ->
     response_of v s (GET_book id) =
       HTTP_200 (JDict [("id", JInt (Book_id b)); ("title", JStr (Book_title b));
                        ("authors", JList [])])) /\
  (forall id a,
     one (filter (fun x => Author_id x =? id) (tbl_authors s)) = Return a ->
     Author_books_rel s a = [] ->
     response_of v s (GET_author id) =
       HTTP_200 (JDict [("id", JInt (Author_id a)); ("name", JStr (Author_name a));
                        ("books", JList [])])).
Proof.
  split.
  - intros id b Hone Hrel. rewrite response_of_shaped. cbn [shaped].
    rewrite Hone. cbn [rbind]. unfold shaped_Book.
    destruct v; cbn [Book_pairs]; rewrite ?Hrel, ?(Book_authors_join_empty s b Hrel);
      reflexivity.
  - intros id a Hone Hrel. rewrite response_of_shaped. cbn [shaped].
    rewrite Hone. cbn [rbind]. unfold shaped_Author.
    destruct v; cbn [Author_pairs];
      rewrite ?Hrel, ?(Author_books_join_empty s a Hrel); reflexivity.
Qed.

Lemma row_without_associations_witness :
  one (filter (fun x => Book_id x =? 1) (tbl_books unrelated)) = Return (mkBook 1 "B") /\
  Book_authors_rel unrelated (mkBook 1 "B") = [] /\
  response_of with_extra_data_3 unrelated (GET_book 1) =
    HTTP_200 (JDict [("id", JInt 1); ("title", JStr "B"); ("authors", JList [])]) /\
  one (filter (fun x => Author_id x =? 1) (tbl_authors unrelated))
    = Return (mkAuthor 1 "A") /\
  Author_books_rel unrelated (mkAuthor 1 "A") = [] /\
  response_of with_extra_data_3 unrelated (GET_author 1) =
    HTTP_200 (JDict [("id", JInt 1); ("name", JStr "A"); ("books", JList [])]).
Proof.
  split; [reflexivity |]. split; [reflexivity |].
  split.
  - apply (proj1 (row_without_associations with_extra_data_3 unrelated) 1
             (mkBook 1 "B")); reflexivity.
  - split; [reflexivity |]. split; [reflexivity |].
    apply (proj2 (row_without_associations with_extra_data_3 unrelated) 1
             (mkAuthor 1 "A")); reflexivity.
Defined.

(** ** The routes as one projection *)




(** ** Rows added the way the seed adds them *)














